(** * bj_components.py: shoe, dealer and player of a blackjack table

    A shallow embedding of the three classes of [bj_components.py]
    ([Deck], [Dealer], [Player]) and the properties of their methods.

    Python objects are records, a method is a function of the object
    ([self]) that returns the updated object together with its result,
    and an exception is a value of [exn].  Cards are Python [str]s, as
    the class attribute [one_deck] builds them. *)

From Stdlib Require Import ZArith List String Ascii Bool Lia QArith DecimalString.
From Stdlib Require Import Permutation.
Import ListNotations.
Open Scope string_scope.
Open Scope Z_scope.

(** ** Exceptions and results *)

Inductive exn : Type :=
| TypeError (msg : string)
| ValueError (msg : string)
| IndexError (msg : string)
| AttributeError (msg : string)
| NameError (name : string).

Inductive res (A : Type) : Type :=
| Ok (a : A)
| Raise (e : exn).
Arguments Ok {A} a.
Arguments Raise {A} e.

Definition res_bind {A B} (r : res A) (k : A -> res B) : res B :=
  match r with
  | Ok a => k a
  | Raise e => Raise e
  end.

Notation "x <- c ;; k" := (res_bind c (fun x => k))
  (at level 61, c at next level, right associativity).

(** A list comprehension whose element expression can raise: the first
    element that raises, in list order, ends the comprehension. *)
Fixpoint comprehension {A B} (f : A -> res B) (l : list A) : res (list B) :=
  match l with
  | [] => Ok []
  | a :: l' => b <- f a ;; bs <- comprehension f l' ;; Ok (b :: bs)
  end.

(** ** Python values reaching the constructors *)

Inductive pyfloat : Type :=
| Finite (q : Q)
| NaN
| Inf (negative : bool).

Inductive pyval : Type :=
| PyNone
| PyBool (b : bool)
| PyInt (z : Z)
| PyFloat (f : pyfloat)
| PyStr (s : string).

(** [isinstance(v, int)]: [bool] is a subclass of [int]. *)
Definition isinstance_int (v : pyval) : bool :=
  match v with
  | PyBool _ | PyInt _ => true
  | _ => false
  end.

Definition isinstance_float (v : pyval) : bool :=
  match v with
  | PyFloat _ => true
  | _ => false
  end.

(** The number a numeric value stands for in a comparison. *)
Definition num_of (v : pyval) : pyfloat :=
  match v with
  | PyBool b => Finite (inject_Z (Z.b2z b))
  | PyInt z => Finite (inject_Z z)
  | PyFloat f => f
  | _ => NaN
  end.

Definition int_of (v : pyval) : Z :=
  match v with
  | PyBool b => Z.b2z b
  | PyInt z => z
  | _ => 0
  end.

(** [a <= v] and [v <= b] for a rational bound; every comparison with
    NaN is false. *)
Definition le_num (a : Q) (v : pyfloat) : bool :=
  match v with
  | Finite q => Qle_bool a q
  | NaN => false
  | Inf negative => negb negative
  end.

Definition num_le (v : pyfloat) (b : Q) : bool :=
  match v with
  | Finite q => Qle_bool q b
  | NaN => false
  | Inf negative => negative
  end.

(** ** Strings and lists as Python has them *)

Definition card := string.

(** [s[0]] on a [str]: the one-character string at index 0. *)
Definition getitem0 (s : string) : res string :=
  match s with
  | EmptyString => Raise (IndexError "string index out of range")
  | String c _ => Ok (String c EmptyString)
  end.

(** [l[i]] on a list. *)
Definition getitem {A} (l : list A) (i : nat) : res A :=
  match nth_error l i with
  | Some a => Ok a
  | None => Raise (IndexError "list index out of range")
  end.

(** [k in l] for a list of strings. *)
Definition str_in (k : string) (l : list string) : bool :=
  existsb (String.eqb k) l.

Definition digit_of (c : ascii) : option Z :=
  let n := Z.of_nat (nat_of_ascii c) in
  if (48 <=? n) && (n <=? 57) then Some (n - 48) else None.

(** [int(k)] for the strings [card[0]] can be: one character.  A digit
    gives its value; any other single character is refused. *)
Definition py_int (k : string) : res Z :=
  match k with
  | String c EmptyString =>
      match digit_of c with
      | Some v => Ok v
      | None => Raise (ValueError "invalid literal for int() with base 10")
      end
  | _ => Raise (ValueError "invalid literal for int() with base 10")
  end.

(** [f"{n}"] for a non-negative integer. *)
Definition str_of_nat (n : nat) : string :=
  NilEmpty.string_of_uint (Nat.to_uint n).

(** [l * n]: the list repeated [n] times, empty for [n <= 0]. *)
Fixpoint repeat_list {A} (l : list A) (n : nat) : list A :=
  match n with
  | O => []
  | S n' => l ++ repeat_list l n'
  end.

Definition list_mul {A} (l : list A) (n : Z) : list A :=
  repeat_list l (Z.to_nat n).

(** [l.insert(i, x)]: a negative index counts from the end, and an index
    past either end is clamped to it. *)
Definition insert_index (len i : Z) : nat :=
  let i1 := if i <? 0 then i + len else i in
  let i2 := if i1 <? 0 then 0 else i1 in
  let i3 := if len <? i2 then len else i2 in
  Z.to_nat i3.

Definition list_insert {A} (l : list A) (i : Z) (x : A) : list A :=
  let n := insert_index (Z.of_nat (List.length l)) i in
  firstn n l ++ x :: skipn n l.

(** [l.pop()]: removes and returns the last item. *)
Definition list_pop {A} (l : list A) : list A * res A :=
  match rev l with
  | [] => (l, Raise (IndexError "pop from empty list"))
  | x :: r => (rev r, Ok x)
  end.

(** [sum(l)]: added from the left, starting at 0. *)
Definition py_sum (l : list Z) : Z := fold_left Z.add l 0.

(** ** class Deck *)

Module Deck.

(** The class attribute [one_deck]: suits in the outer loop, values
    in the inner one. *)
Definition suits : list string := ["D"; "H"; "C"; "S"].

Definition vals : list string :=
  map str_of_nat (seq 2 9) ++ ["J"; "Q"; "K"; "A"].

Definition one_deck : list card :=
  flat_map (fun suit => map (fun val => val ++ suit) vals) suits.

(** The item [shuffle] inserts as the cut card. *)
Definition cut_card : card := "0".

Record t : Type := mk {
  num_decks : pyval;
  cut_card_loc : pyval;
  full_deck : list card;
  current_deck : option (list card)
}.

(** The two random draws of one [shuffle]:
    [picks] are the positions [np.random.choice] drew from
    [full_deck], one per item of the result, and [location] is the
    integer [int(np.random.uniform(.5, 1.5) * (52 * cut_card_loc))]. *)
Record draws : Type := mk_draws {
  picks : list nat;
  location : Z
}.

(** [np.random.choice(a, size=len(a))]: [replace] is left at its
    default, so each position is drawn from the whole of [a]. *)
Definition choice (a : list card) (ps : list nat) : list card :=
  map (fun i => nth i a "") ps.

Definition set_current_deck (l : list card) (self : t) : t :=
  mk (num_decks self) (cut_card_loc self) (full_deck self) (Some l).

Definition shuffle (d : draws) (self : t) : t :=
  let current := choice (full_deck self) (picks d) in
  set_current_deck (list_insert current (location d) cut_card) self.

Section Globals.

(** What the bare name [one_deck] is bound to at module level. *)
Variable global_one_deck : option (list card).

Definition init (n c : pyval) (d : draws) : res t :=
  if negb (isinstance_int n && (isinstance_int c || isinstance_float c))
  then Raise (TypeError
    "Please enter an integer for num_decks or an interger or float for cut_card_loc!")
  else if negb ((0 <? int_of n) && (int_of n <? 9))
          || negb (le_num (1 # 2)%Q (num_of c) && num_le (num_of c) (2 # 1)%Q)
  then Raise (ValueError
    "Please enter a number of decks between 1 and 8 or the cut card location between .5 and 2!")
  else
    match global_one_deck with
    | None => Raise (NameError "one_deck")
    | Some deck =>
        Ok (shuffle d (mk n c (list_mul deck (int_of n)) None))
    end.

End Globals.

End Deck.

(** ** class Dealer *)

Module Dealer.

Record t : Type := mk {
  hit_on_soft17 : bool;
  min_bet : Z;
  max_bet : Z;
  deck : Deck.t;
  current_hand : list card
}.

Definition init (global_one_deck : option (list card))
    (num_decks cut_card_loc : pyval) (hit : bool) (min max : Z)
    (d : Deck.draws) : res t :=
  dk <- Deck.init global_one_deck num_decks cut_card_loc d ;;
  Ok (mk hit min max dk []).

(** One element of [hand_vals]: [card[0]] is the first character of
    the card's string. *)
Definition hand_val (c : card) : res Z :=
  k <- getitem0 c ;;
  if negb (str_in k ["A"; "J"; "Q"; "K"]) then py_int k
  else if str_in k ["J"; "Q"; "K"] then Ok 10
  else Ok 1.

Definition check_hand_total (hand : list card) : res Z :=
  hand_vals <- comprehension hand_val hand ;;
  let aces := filter (Z.eqb 1) hand_vals in
  let hand_sum := py_sum hand_vals in
  match aces with
  | _ :: _ =>
      let sum_with_eleven_ace := hand_sum + 10 in
      if sum_with_eleven_ace <=? 21 then Ok sum_with_eleven_ace
      else Ok hand_sum
  | [] => Ok hand_sum
  end.

(** [a and b] and [a or b] on operands that can raise: the right one
    is evaluated only when the left one does not decide. *)
Definition and_then (a : res bool) (b : res bool) : res bool :=
  x <- a ;; if x then b else Ok false.

Definition or_else (a : res bool) (b : res bool) : res bool :=
  x <- a ;; if x then Ok true else b.

Definition tens : list string := ["10"; "J"; "Q"; "K"].

(** [hand[i][0]] *)
Definition rank_at (hand : list card) (i : nat) : res string :=
  c <- getitem hand i ;; getitem0 c.

Definition check_blackjack (hand : list card) : res bool :=
  b <- or_else
         (and_then (k <- rank_at hand 0 ;; Ok (String.eqb k "A"))
                   (k <- rank_at hand 1 ;; Ok (str_in k tens)))
         (and_then (k <- rank_at hand 1 ;; Ok (String.eqb k "A"))
                   (k <- rank_at hand 0 ;; Ok (str_in k tens))) ;;
  if b then Ok true else Ok false.

Definition decide_next_move (self : t) : res string :=
  total <- check_hand_total (current_hand self) ;;
  if total <? 17 then Ok "hit" else Ok "stand".

Definition set_deck (dk : Deck.t) (self : t) : t :=
  mk (hit_on_soft17 self) (min_bet self) (max_bet self) dk
     (current_hand self).

(** [self.deck.current_deck.pop()] *)
Definition deal_card (self : t) : t * res card :=
  match Deck.current_deck (deck self) with
  | None =>
      (self, Raise (AttributeError "'NoneType' object has no attribute 'pop'"))
  | Some l =>
      let '(l', r) := list_pop l in
      (set_deck (Deck.set_current_deck l' (deck self)) self, r)
  end.

Definition reset_hand (self : t) : t :=
  mk (hit_on_soft17 self) (min_bet self) (max_bet self) (deck self) [].

End Dealer.

(** ** class Player *)

Module Player.

(** Amounts of money are integers, as the bets of the dealer's
    docstring are; [previous_bet] and [previous_outcome] start as
    [None]. *)
Record t : Type := mk {
  bank : Z;
  bet_strategy : string;
  play_strategy : string;
  current_hand : list card;
  current_bet : Z;
  previous_bet : option Z;
  previous_outcome : option string
}.

Definition init (bank : Z) (bet_strategy play_strategy : string) : t :=
  mk bank bet_strategy play_strategy [] 0 None None.

Definition set_bank (v : Z) (self : t) : t :=
  mk v (bet_strategy self) (play_strategy self) (current_hand self)
     (current_bet self) (previous_bet self) (previous_outcome self).

Definition set_current_bet (v : Z) (self : t) : t :=
  mk (bank self) (bet_strategy self) (play_strategy self)
     (current_hand self) v (previous_bet self) (previous_outcome self).

Definition check_bet_allowed (self : t) (bet_amt : Z) (dealer : Dealer.t)
    : bool :=
  if (bank self <? bet_amt) || (bet_amt >? Dealer.max_bet dealer)
  then false
  else true.

(** A method body runs on the player object and can raise. *)
Definition M (A : Type) : Type := t -> t * res A.

Definition ret {A} (a : A) : M A := fun self => (self, Ok a).

Definition bind {A B} (m : M A) (k : A -> M B) : M B :=
  fun self =>
    match m self with
    | (self', Ok a) => k a self'
    | (self', Raise e) => (self', Raise e)
    end.

Definition raise {A} (e : exn) : M A := fun self => (self, Raise e).

Definition lift {A} (r : res A) : M A := fun self => (self, r).

Definition get {A} (f : t -> A) : M A := fun self => (self, Ok (f self)).

Definition update (f : t -> t) : M unit := fun self => (f self, Ok tt).

Notation "x <~ c ;; k" := (bind c (fun x => k))
  (at level 61, c at next level, right associativity).
Notation "c ;;; k" := (bind c (fun _ => k))
  (at level 61, right associativity).

(** [not v] on the two attributes the first test reads. *)
Definition not_bet (v : option Z) : bool :=
  match v with
  | None => true
  | Some b => b =? 0
  end.

Definition not_outcome (v : option string) : bool :=
  match v with
  | None => true
  | Some s => String.eqb s ""
  end.

Definition outcome_is (v : option string) (s : string) : bool :=
  match v with
  | None => false
  | Some o => String.eqb o s
  end.

Definition bet_is (v : option Z) (b : Z) : bool :=
  match v with
  | None => false
  | Some a => a =? b
  end.

(** [self.previous_bet] as an operand of [+] or [-]. *)
Definition operand (v : option Z) : res Z :=
  match v with
  | None =>
      Raise (TypeError "unsupported operand type(s): 'NoneType' and 'int'")
  | Some b => Ok b
  end.

Definition insufficient_funds : exn := ValueError "Not enough funds for bet!".

(** [self.current_bet = amt; self.bank -= self.current_bet] *)
Definition commit (amt : Z) : M unit :=
  update (set_current_bet amt) ;;;
  update (fun self => set_bank (bank self - current_bet self) self).

Section Globals.

(** What the bare name [check_bet_allowed] is bound to at module
    level; the method of that name is reached only through
    [self]. *)
Variable global_check_bet_allowed : option (Z -> Dealer.t -> res bool).

(** A call [check_bet_allowed(amt, dealer)]: the name is looked up
    first, then the argument is evaluated, then the call is made. *)
Definition call_check_bet_allowed (amt : t -> res Z) (dealer : Dealer.t)
    : M bool :=
  match global_check_bet_allowed with
  | None => raise (NameError "check_bet_allowed")
  | Some f => a <~ (fun self => (self, amt self)) ;; lift (f a dealer)
  end.

Definition place_initial_bet (dealer : Dealer.t) : M unit :=
  let min_bet := Dealer.min_bet dealer in
  let max_bet := Dealer.max_bet dealer in
  prev_bet <~ get previous_bet ;;
  prev_outcome <~ get previous_outcome ;;
  if not_bet prev_bet && not_outcome prev_outcome then
    commit min_bet
  else if outcome_is prev_outcome "win" then
    if bet_is prev_bet min_bet then
      ok <~ call_check_bet_allowed (fun _ => Ok min_bet) dealer ;;
      if ok then commit min_bet
      else raise insufficient_funds
    else
      ok <~ call_check_bet_allowed
              (fun self => b <- operand (previous_bet self) ;; Ok (b - min_bet))
              dealer ;;
      if ok then
        b <~ lift (operand prev_bet) ;; commit (b - min_bet)
      else raise insufficient_funds
  else if outcome_is prev_outcome "loss" then
    if bet_is prev_bet min_bet then
      ok <~ call_check_bet_allowed
              (fun self => b <- operand (previous_bet self) ;; Ok (b + min_bet))
              dealer ;;
      if ok then
        b <~ lift (operand prev_bet) ;; commit (b + min_bet)
      else
        b <~ lift (operand prev_bet) ;;
        bk <~ get bank ;;
        if b + min_bet >? bk then raise insufficient_funds
        else if b + min_bet >? max_bet then
          ok' <~ call_check_bet_allowed (fun _ => Ok max_bet) dealer ;;
          if ok' then commit max_bet
          else raise insufficient_funds
        else ret tt
    else ret tt
  else ret tt.

End Globals.

End Player.


(** ** The module as it is loaded

    [bj_components.py] binds [np], [pd], [Deck], [Dealer] and [Player]
    at module level and nothing else: neither [one_deck], an attribute
    of class [Deck], nor [check_bet_allowed], a method of class
    [Player], is a module-level name. *)

Definition module_one_deck : option (list card) := None.

Definition module_check_bet_allowed : option (Z -> Dealer.t -> res bool) :=
  None.

(** ** Dealing several cards, and the shoes a shuffle can leave *)

(** [k] calls of [deal_card] in a row, with what each returned. *)
Fixpoint deal_many (k : nat) (self : Dealer.t) : Dealer.t * list (res card) :=
  match k with
  | O => (self, [])
  | S k' =>
      let '(self1, r) := Dealer.deal_card self in
      let '(self2, rs) := deal_many k' self1 in
      (self2, r :: rs)
  end.

(** The dealer after its shoe has been shuffled with the draws [d]. *)
Definition reshuffled (d : Deck.draws) (self : Dealer.t) : Dealer.t :=
  Dealer.set_deck (Deck.shuffle d (Dealer.deck self)) self.

(** The dealer whose shoe holds the drawable sequence [l]. *)
Definition holding (l : list card) (self : Dealer.t) : Dealer.t :=
  Dealer.set_deck (Deck.set_current_deck l (Dealer.deck self)) self.

(** The item [deal_card] would return next. *)
Definition top (self : Dealer.t) : option card :=
  match Deck.current_deck (Dealer.deck self) with
  | None => None
  | Some l => last (map Some l) None
  end.

(** Draws [np.random] can produce for a shoe: one position of
    [full_deck] per card, and a cut-card index that is not negative
    (both factors of the product are positive). *)
Definition possible_draws (d : Deck.draws) (dk : Deck.t) : Prop :=
  List.length (Deck.picks d) = List.length (Deck.full_deck dk) /\
  Forall (fun i => (i < List.length (Deck.full_deck dk))%nat) (Deck.picks d) /\
  0 <= Deck.location d.

(** The shoes the dealer can hold after a shuffle and any number of
    deals. *)
Inductive reachable : Dealer.t -> Prop :=
| reachable_shuffle (self : Dealer.t) (d : Deck.draws) :
    possible_draws d (Dealer.deck self) -> reachable (reshuffled d self)
| reachable_deal (self : Dealer.t) :
    reachable self -> reachable (fst (Dealer.deal_card self)).

(** ** The specification's reading of cards and hands

    These definitions follow the words of the specification, to be
    compared with the methods above. *)

Module Spec.

Inductive rank : Type :=
| Num (n : nat)
| Jack
| Queen
| King
| Ace.

Definition playing_card : Type := (rank * string)%type.

(** A rank of the deck: 2 to 10, or a face card, or an ace. *)
Definition in_deck (r : rank) : bool :=
  match r with
  | Num n => (2 <=? n)%nat && (n <=? 10)%nat
  | _ => true
  end.

Definition is_ace (r : rank) : bool :=
  match r with
  | Ace => true
  | _ => false
  end.

Definition is_ten (r : rank) : bool :=
  match r with
  | Num n => (n =? 10)%nat
  | _ => false
  end.

(** Number cards count face value, J/Q/K count 10, Ace counts 1. *)
Definition value (r : rank) : Z :=
  match r with
  | Num n => Z.of_nat n
  | Jack | Queen | King => 10
  | Ace => 1
  end.

Definition base_sum (hand : list playing_card) : Z :=
  fold_right Z.add 0 (map (fun c => value (fst c)) hand).

(** With an ace in the hand, one ace is promoted to 11 when that
    keeps the total at 21 or less. *)
Definition total (hand : list playing_card) : Z :=
  if existsb (fun c => is_ace (fst c)) hand then
    if base_sum hand + 10 <=? 21 then base_sum hand + 10 else base_sum hand
  else base_sum hand.

Definition ten_valued (r : rank) : bool :=
  match r with
  | Num n => (n =? 10)%nat
  | Jack | Queen | King => true
  | Ace => false
  end.

(** An ace and a ten-valued card, in either order. *)
Definition is_blackjack (c1 c2 : playing_card) : bool :=
  (is_ace (fst c1) && ten_valued (fst c2))
  || (is_ace (fst c2) && ten_valued (fst c1)).

(** The string [one_deck] holds for a card: [f"{val}{suit}"]. *)
Definition rank_str (r : rank) : string :=
  match r with
  | Num n => str_of_nat n
  | Jack => "J"
  | Queen => "Q"
  | King => "K"
  | Ace => "A"
  end.

Definition encode (c : playing_card) : card := rank_str (fst c) ++ snd c.

(** The 52 cards of one deck, in the order of [one_deck]. *)
Definition ranks : list rank :=
  map Num (seq 2 9) ++ [Jack; Queen; King; Ace].

Definition deck52 : list playing_card :=
  flat_map (fun suit => map (fun r => (r, suit)) ranks) Deck.suits.

End Spec.

(** ** Objects used as concrete inputs *)

(** A shoe of one deck, as [Deck(1, 1)] would fill its attributes. *)
Definition one_deck_shoe : Deck.t :=
  Deck.mk (PyInt 1) (PyInt 1) Deck.one_deck None.

Definition table (hit : bool) (hand : list card) : Dealer.t :=
  Dealer.mk hit 15 1000 one_deck_shoe hand.

(** [np.random.choice] drawing position 0 every time, and the cut-card
    index [int(1.0 * (52 * 1))]. *)
Definition same_card_draws : Deck.draws :=
  Deck.mk_draws (repeat 0%nat 52) 52.

(** [np.random.choice] drawing every position once, in order, and the
    same cut-card index: the shoe is the deck itself with the cut card
    on top. *)
Definition in_order_draws : Deck.draws :=
  Deck.mk_draws (seq 0 52) 52.

(** A player in a later round. *)
Definition player_after (bank bet : Z) (outcome : string) : Player.t :=
  Player.mk bank "dalembert" "basic" [] bet (Some bet) (Some outcome).

(** What [check_hand_total] makes of a rank of the deck: the first
    character of a ten is the digit 1. *)
Definition counted (r : Spec.rank) : Z :=
  if Spec.is_ten r then 1 else Spec.value r.

Definition counted_as_ace (r : Spec.rank) : bool :=
  Spec.is_ace r || Spec.is_ten r.

Definition counted_sum (hand : list Spec.playing_card) : Z :=
  fold_right Z.add 0 (map (fun c => counted (fst c)) hand).

Definition counted_total (hand : list Spec.playing_card) : Z :=
  if existsb (fun c => counted_as_ace (fst c)) hand then
    if counted_sum hand + 10 <=? 21 then counted_sum hand + 10
    else counted_sum hand
  else counted_sum hand.

(** What [check_blackjack] takes for a ten-valued card among the cards
    of the deck: the first character is J, Q or K. *)
Definition face (r : Spec.rank) : bool :=
  match r with
  | Spec.Jack | Spec.Queen | Spec.King => true
  | _ => false
  end.

Definition ace_and_face (c1 c2 : Spec.playing_card) : bool :=
  (Spec.is_ace (fst c1) && face (fst c2))
  || (Spec.is_ace (fst c2) && face (fst c1)).

(** The binding under which the calls in [place_initial_bet] would
    reach the player's own method, as [self.check_bet_allowed] does. *)
Definition own_method (self : Player.t) : option (Z -> Dealer.t -> res bool) :=
  Some (fun amt dealer => Ok (Player.check_bet_allowed self amt dealer)).

(** The player once [amt] has been committed as the bet. *)
Definition committed (amt : Z) (self : Player.t) : Player.t :=
  Player.set_bank (Player.bank self - amt) (Player.set_current_bet amt self).

(** ** The player's strategy table and move

    [choose_play_strategy] and [decide_next_move] of class [Player] work
    on a pandas frame.  The frame is taken through the two operations
    the methods use: the selection [df[df['num_decks'] == k]] and the
    lookup [.loc[key, column]]. *)

Module Play.

(** What [.loc[key, column]] gives when both labels are found: the value
    of one cell or, when the row label is not unique, a Series. *)
Inductive cell : Type :=
| Scalar (v : pyval)
| Series.

(** A selected table: its [.loc], with [None] for a label that is not
    found (KeyError). *)
Definition table : Type := string -> string -> option cell.

(** The frame read from [basic_strats.csv], by the selections made on
    it: [df k] is [df[df['num_decks'] == k]]. *)
Definition frame : Type := Z -> table.

(** What [self.play_strategy] holds: the name given to the constructor
    or the table put there by [choose_play_strategy]. *)
Inductive held : Type :=
| Name (s : string)
| Table (t : table).

(** How a call ends: a value, an exception of [exn], or KeyError. *)
Inductive outcome (A : Type) : Type :=
| Returns (a : A)
| Raises (e : exn)
| KeyError.
Arguments Returns {A} a.
Arguments Raises {A} e.
Arguments KeyError {A}.

Definition and_next {A B} (o : outcome A) (k : A -> outcome B) : outcome B :=
  match o with
  | Returns a => k a
  | Raises e => Raises e
  | KeyError => KeyError
  end.

Definition of_res {A} (r : res A) : outcome A :=
  match r with
  | Ok a => Returns a
  | Raise e => Raises e
  end.

Notation "x <~ c ;; k" := (and_next c (fun x => k))
  (at level 61, c at next level, right associativity).

(** [v == k] for an integer literal [k]. *)
Definition eq_int (v : pyval) (k : Z) : bool :=
  match v with
  | PyBool b => Z.b2z b =? k
  | PyInt z => z =? k
  | PyFloat (Finite q) => Qeq_bool q (inject_Z k)
  | _ => false
  end.

(** [if self.play_strategy == 'basic':] on a frame compares cell by
    cell and then asks for the truth value of the resulting frame. *)
Definition choose_play_strategy (df : frame) (strategy : held)
    (dealer : Dealer.t) : outcome held :=
  match strategy with
  | Table _ =>
      Raises (ValueError "The truth value of a DataFrame is ambiguous.")
  | Name s =>
      if String.eqb s "basic" then
        let n := Deck.num_decks (Dealer.deck dealer) in
        if eq_int n 1 then Returns (Table (df 1))
        else if eq_int n 2 || eq_int n 3 then Returns (Table (df 2))
        else Returns (Table (df 4))
      else Returns (Name s)
  end.

Definition move_dict : list (string * string) :=
  [("H", "hit"); ("S", "stand"); ("D", "double"); ("SP", "split")].

(** [Player.move_dict[c]] *)
Definition getitem_move (c : cell) : outcome string :=
  match c with
  | Series => Raises (TypeError "unhashable type: 'Series'")
  | Scalar (PyStr code) =>
      match find (fun kv => String.eqb (fst kv) code) move_dict with
      | Some kv => Returns (snd kv)
      | None => KeyError
      end
  | Scalar _ => KeyError
  end.

(** [f"{n}"] for an integer. *)
Definition str_of_Z (z : Z) : string :=
  NilZero.string_of_int (Z.to_int z).

(** [Player.move_dict[self.play_strategy.loc[key, dealer_card]]]: the
    attribute [loc] is fetched before the key is evaluated. *)
Definition lookup_move (strategy : held) (key : res string)
    (dealer_card : string) : outcome string :=
  match strategy with
  | Name _ => Raises (AttributeError "'str' object has no attribute 'loc'")
  | Table t =>
      k <~ of_res key ;;
      match t k dealer_card with
      | None => KeyError
      | Some c => getitem_move c
      end
  end.

(** [f"{Dealer.check_hand_total(self.current_hand)}"] *)
Definition total_key (hand : list card) : res string :=
  total <- Dealer.check_hand_total hand ;; Ok (str_of_Z total).

Definition decide_next_move (strategy : held) (self : Player.t)
    (dealer : Dealer.t) : outcome string :=
  let hand := Player.current_hand self in
  dealer_card <~ of_res (Dealer.rank_at (Dealer.current_hand dealer) 0) ;;
  blackjack <~ of_res (if (List.length hand =? 2)%nat
                       then Dealer.check_blackjack hand else Ok false) ;;
  if blackjack then Returns "stand"
  else if (List.length hand =? 2)%nat then
    k0 <~ of_res (Dealer.rank_at hand 0) ;;
    k1 <~ of_res (Dealer.rank_at hand 1) ;;
    if String.eqb k0 k1 then
      lookup_move strategy (Ok (k0 ++ "," ++ k1)) dealer_card
    else if String.eqb k0 "A" || String.eqb k1 "A" then
      if String.eqb k0 "A" then
        lookup_move strategy (Ok ("A" ++ k1)) dealer_card
      else lookup_move strategy (Ok ("A" ++ k0)) dealer_card
    else lookup_move strategy (total_key hand) dealer_card
  else lookup_move strategy (total_key hand) dealer_card.

End Play.

(** A card [check_hand_total] can read: its first character is a digit
    or one of A, J, Q, K. *)
Definition readable (c : card) : bool :=
  match c with
  | EmptyString => false
  | String ch _ =>
      match digit_of ch with
      | Some _ => true
      | None => str_in (String ch EmptyString) ["A"; "J"; "Q"; "K"]
      end
  end.

(** A player seated with the hand [hand]. *)
Definition seated (hand : list card) : Player.t :=
  Player.mk 1000 "dalembert" "basic" hand 15 None None.

(** A table with the single row "16" and the single column "9". *)
Definition sixteen_against_nine : Play.table :=
  fun key column =>
    if String.eqb key "16" && String.eqb column "9"
    then Some (Play.Scalar (PyStr "H")) else None.

(** * Properties *)

(** ** Hand evaluation *)

(** The numbers a card of the deck can show, one case each. *)
Ltac each_number n Hn :=
  do 11 (destruct n as [|n]; [first [discriminate Hn | reflexivity]|]);
  discriminate Hn.

(** A closed fact about the 52 strings of [one_deck]. *)
Ltac by_evaluation := vm_compute; reflexivity.

Ltac split_upto n H k :=
  lazymatch k with
  | O => try discriminate H
  | S ?k' => destruct n as [|n]; [try discriminate H | split_upto n H k']
  end.

Ltac split_number :=
  match goal with
  | H : Spec.in_deck (Spec.Num ?n) = true |- _ =>
      is_var n; split_upto n H 11%nat
  end.

Lemma one_deck_is_deck52 : map Spec.encode Spec.deck52 = Deck.one_deck.
Proof. reflexivity. Qed.

Lemma comprehension_total {A B} (f : A -> res B) (g : A -> B) (l : list A) :
  (forall a, In a l -> f a = Ok (g a)) ->
  comprehension f l = Ok (map g l).
Proof.
  induction l as [|a l IH]; intros Hf; simpl.
  - reflexivity.
  - rewrite (Hf a (or_introl eq_refl)). simpl.
    rewrite IH by (intros b Hb; apply Hf; now right).
    reflexivity.
Qed.

Lemma fold_left_add_shift (l : list Z) (a : Z) :
  fold_left Z.add l a = a + fold_right Z.add 0 l.
Proof.
  revert a. induction l as [|x l IH]; intros a; simpl.
  - lia.
  - rewrite IH. lia.
Qed.

Lemma py_sum_fold_right (l : list Z) : py_sum l = fold_right Z.add 0 l.
Proof. unfold py_sum. rewrite fold_left_add_shift. lia. Qed.

Lemma hand_val_encode (r : Spec.rank) (suit : string) :
  Spec.in_deck r = true ->
  Dealer.hand_val (Spec.encode (r, suit)) = Ok (counted r).
Proof.
  destruct r as [n| | | |]; try reflexivity.
  intros Hn. each_number n Hn.
Qed.

Lemma counted_one (r : Spec.rank) :
  Spec.in_deck r = true -> (counted r =? 1) = counted_as_ace r.
Proof.
  destruct r as [n| | | |]; try reflexivity.
  intros Hn. each_number n Hn.
Qed.

Lemma filter_aces (hand : list Spec.playing_card) :
  Forall (fun c => Spec.in_deck (fst c) = true) hand ->
  filter (Z.eqb 1) (map (fun c => counted (fst c)) hand) = [] <->
  existsb (fun c => counted_as_ace (fst c)) hand = false.
Proof.
  induction 1 as [|c hand Hc _ IH]; cbn [filter map existsb].
  - tauto.
  - rewrite (Z.eqb_sym 1), (counted_one _ Hc).
    destruct (counted_as_ace (fst c)); cbn [orb].
    + split; discriminate.
    + exact IH.
Qed.

(** On every hand of cards of the deck, [check_hand_total] returns the
    total in which a ten counts 1 and is taken for an ace. *)
Lemma check_hand_total_deck (hand : list Spec.playing_card) :
  Forall (fun c => Spec.in_deck (fst c) = true) hand ->
  Dealer.check_hand_total (map Spec.encode hand) = Ok (counted_total hand).
Proof.
  intros Hdeck. unfold Dealer.check_hand_total.
  assert (Hvals : comprehension Dealer.hand_val (map Spec.encode hand)
                  = Ok (map (fun c => counted (fst c)) hand)).
  { rewrite <- (map_map Spec.encode (fun s => s)), map_id.
    clear -Hdeck. induction Hdeck as [|[r suit] hand Hr _ IH]; simpl.
    - reflexivity.
    - rewrite (hand_val_encode r suit Hr). simpl. rewrite IH. reflexivity. }
  rewrite Hvals. simpl res_bind.
  rewrite py_sum_fold_right. fold (counted_sum hand).
  unfold counted_total.
  pose proof (filter_aces hand Hdeck) as Haces.
  destruct (filter (Z.eqb 1) (map (fun c => counted (fst c)) hand)) as [|v vs].
  - rewrite (proj1 Haces eq_refl). reflexivity.
  - destruct (existsb (fun c => counted_as_ace (fst c)) hand).
    + destruct (counted_sum hand + 10 <=? 21); reflexivity.
    + destruct Haces as [_ Haces]. discriminate (Haces eq_refl).
Qed.

Lemma counted_total_without_tens (hand : list Spec.playing_card) :
  Forall (fun c => Spec.is_ten (fst c) = false) hand ->
  counted_total hand = Spec.total hand.
Proof.
  intros Hten.
  assert (Hsum : counted_sum hand = Spec.base_sum hand).
  { unfold counted_sum, Spec.base_sum. f_equal.
    apply map_ext_in. intros c Hc.
    rewrite Forall_forall in Hten. unfold counted. now rewrite (Hten c Hc). }
  assert (Hace : existsb (fun c => counted_as_ace (fst c)) hand
                 = existsb (fun c => Spec.is_ace (fst c)) hand).
  { clear Hsum. induction Hten as [|c hand Hc _ IH]; simpl.
    - reflexivity.
    - unfold counted_as_ace at 1. rewrite Hc, orb_false_r, IH. reflexivity. }
  unfold counted_total, Spec.total. now rewrite Hsum, Hace.
Qed.

(** Without tens in the hand the method agrees with the specification's
    total: number cards 2 to 9 at face value, J/Q/K as 10, one ace
    promoted when that keeps the total at 21 or less. *)
Lemma check_hand_total_without_tens (hand : list Spec.playing_card) :
  Forall (fun c => Spec.in_deck (fst c) = true) hand ->
  Forall (fun c => Spec.is_ten (fst c) = false) hand ->
  Dealer.check_hand_total (map Spec.encode hand) = Ok (Spec.total hand).
Proof.
  intros Hdeck Hten.
  rewrite (check_hand_total_deck hand Hdeck).
  now rewrite (counted_total_without_tens hand Hten).
Qed.

Lemma check_hand_total_ace_six :
  Dealer.check_hand_total ["AD"; "6H"] = Ok 17 /\
  Dealer.check_hand_total ["AD"; "6H"; "9C"] = Ok 16.
Proof. split; reflexivity. Qed.

(** C1: on the hand of a ten and a five, [check_hand_total] returns 16
    where the sum with the ten counted as 10 is 15: the ten is read by
    its first character, counts 1 and is then promoted like an ace.  Two
    tens give 12 instead of 20. *)
Theorem check_hand_total_ten_five :
  map Spec.encode [(Spec.Num 10, "D"); (Spec.Num 5, "H")] = ["10D"; "5H"] /\
  Dealer.check_hand_total ["10D"; "5H"] = Ok 16 /\
  Spec.total [(Spec.Num 10, "D"); (Spec.Num 5, "H")] = 15 /\
  Dealer.check_hand_total ["10D"; "10H"] = Ok 12 /\
  Spec.total [(Spec.Num 10, "D"); (Spec.Num 10, "H")] = 20.
Proof. repeat split; reflexivity. Qed.

(** ** Blackjack detection *)

(** On two cards of the deck [check_blackjack] answers true exactly for
    an ace with a jack, queen or king. *)
Lemma check_blackjack_deck (c1 c2 : Spec.playing_card) :
  Spec.in_deck (fst c1) = true ->
  Spec.in_deck (fst c2) = true ->
  Dealer.check_blackjack [Spec.encode c1; Spec.encode c2]
  = Ok (ace_and_face c1 c2).
Proof.
  destruct c1 as [r1 s1], c2 as [r2 s2]. cbn [fst].
  intros H1 H2.
  destruct r1 as [n| | | |], r2 as [m| | | |]; repeat split_number;
    reflexivity.
Qed.

Lemma check_blackjack_without_tens (c1 c2 : Spec.playing_card) :
  Spec.in_deck (fst c1) = true ->
  Spec.in_deck (fst c2) = true ->
  Spec.is_ten (fst c1) = false ->
  Spec.is_ten (fst c2) = false ->
  Dealer.check_blackjack [Spec.encode c1; Spec.encode c2]
  = Ok (Spec.is_blackjack c1 c2).
Proof.
  intros H1 H2 T1 T2. rewrite (check_blackjack_deck c1 c2 H1 H2).
  f_equal. unfold ace_and_face, Spec.is_blackjack.
  destruct c1 as [r1 s1], c2 as [r2 s2]. cbn [fst] in *.
  destruct r1, r2; cbn in *; try reflexivity;
    try rewrite T1; try rewrite T2; reflexivity.
Qed.

Lemma check_blackjack_examples :
  Dealer.check_blackjack ["AD"; "KH"] = Ok true /\
  Dealer.check_blackjack ["QS"; "AC"] = Ok true /\
  Dealer.check_blackjack ["AD"; "9H"] = Ok false.
Proof. repeat split; reflexivity. Qed.

(** A hand shorter than two cards raises, and cards after the second
    are not looked at. *)
Lemma check_blackjack_other_lengths :
  Dealer.check_blackjack ["AD"]
  = Raise (IndexError "list index out of range") /\
  Dealer.check_blackjack ["AD"; "KH"; "5C"] = Ok true.
Proof. split; reflexivity. Qed.

(** C5: the hands of a ten and an ace, in either order, are an ace with
    a ten-valued card, and [check_blackjack] answers false: the first
    character of the card "10D" is "1", which is not in the list of
    "10", "J", "Q" and "K". *)
Theorem check_blackjack_ten_ace :
  map Spec.encode [(Spec.Num 10, "D"); (Spec.Ace, "H")] = ["10D"; "AH"] /\
  Spec.is_blackjack (Spec.Num 10, "D") (Spec.Ace, "H") = true /\
  Dealer.check_blackjack ["10D"; "AH"] = Ok false /\
  Spec.is_blackjack (Spec.Ace, "H") (Spec.Num 10, "D") = true /\
  Dealer.check_blackjack ["AH"; "10D"] = Ok false.
Proof. repeat split; reflexivity. Qed.

(** ** The dealer's move *)

Lemma decide_next_move_threshold (self : Dealer.t) (total : Z) :
  Dealer.check_hand_total (Dealer.current_hand self) = Ok total ->
  Dealer.decide_next_move self = Ok (if total <? 17 then "hit" else "stand").
Proof.
  intros Htotal. unfold Dealer.decide_next_move. rewrite Htotal. simpl.
  destruct (total <? 17); reflexivity.
Qed.

Lemma decide_next_move_below_17 (self : Dealer.t) (total : Z) :
  Dealer.check_hand_total (Dealer.current_hand self) = Ok total ->
  total < 17 ->
  Dealer.decide_next_move self = Ok "hit".
Proof.
  intros Htotal Hlt. rewrite (decide_next_move_threshold self total Htotal).
  apply Z.ltb_lt in Hlt. now rewrite Hlt.
Qed.

Lemma decide_next_move_from_17 (self : Dealer.t) (total : Z) :
  Dealer.check_hand_total (Dealer.current_hand self) = Ok total ->
  17 <= total ->
  Dealer.decide_next_move self = Ok "stand".
Proof.
  intros Htotal Hge. rewrite (decide_next_move_threshold self total Htotal).
  apply Z.ltb_ge in Hge. now rewrite Hge.
Qed.

(** The move is a function of the hand alone. *)
Lemma decide_next_move_hand_only (a b : Dealer.t) :
  Dealer.current_hand a = Dealer.current_hand b ->
  Dealer.decide_next_move a = Dealer.decide_next_move b.
Proof.
  intros Hhand. unfold Dealer.decide_next_move. now rewrite Hhand.
Qed.

Lemma decide_next_move_examples (hit : bool) :
  Dealer.decide_next_move (table hit ["9D"; "7H"]) = Ok "hit" /\
  Dealer.decide_next_move (table hit ["9D"; "9H"]) = Ok "stand".
Proof. split; reflexivity. Qed.

(** C4: with [hit_on_soft17] set, the dealer holding an ace and a six
    (17 through the promoted ace) is told to stand: the flag is stored
    by the constructor and never read. *)
Theorem decide_next_move_soft_17 (min max : Z) (dk : Deck.t) :
  Dealer.hit_on_soft17 (Dealer.mk true min max dk ["AD"; "6H"]) = true /\
  Dealer.check_hand_total ["AD"; "6H"] = Ok 17 /\
  Dealer.decide_next_move (Dealer.mk true min max dk ["AD"; "6H"])
  = Ok "stand".
Proof. repeat split; reflexivity. Qed.

(** ** The shoe *)

Lemma one_deck_length : List.length Deck.one_deck = 52%nat.
Proof. reflexivity. Qed.

Lemma one_deck_NoDup : NoDup Deck.one_deck.
Proof.
  replace Deck.one_deck with (nodup string_dec Deck.one_deck)
    by by_evaluation.
  apply NoDup_nodup.
Qed.

Lemma one_deck_no_cut_card : ~ In Deck.cut_card Deck.one_deck.
Proof.
  intros Hin.
  apply (count_occ_In string_dec) in Hin.
  replace (count_occ string_dec Deck.one_deck Deck.cut_card) with 0%nat in Hin
    by by_evaluation.
  lia.
Qed.

Lemma length_list_mul {A} (l : list A) (n : Z) :
  List.length (list_mul l n) = (List.length l * Z.to_nat n)%nat.
Proof.
  unfold list_mul. induction (Z.to_nat n) as [|k IH]; simpl.
  - lia.
  - rewrite length_app, IH. lia.
Qed.

Lemma insert_index_le (len : nat) (i : Z) :
  (insert_index (Z.of_nat len) i <= len)%nat.
Proof.
  unfold insert_index.
  destruct (i <? 0) eqn:Hneg;
    [destruct (i + Z.of_nat len <? 0) eqn:Hlow
    |destruct (i <? 0) eqn:Hlow; [discriminate|]];
    match goal with
    | |- context [Z.of_nat len <? ?j] => destruct (Z.of_nat len <? j) eqn:Hhigh
    end;
    try apply Z.ltb_lt in Hneg; try apply Z.ltb_ge in Hneg;
    try apply Z.ltb_lt in Hlow; try apply Z.ltb_ge in Hlow;
    try apply Z.ltb_lt in Hhigh; try apply Z.ltb_ge in Hhigh; lia.
Qed.

Lemma length_list_insert {A} (l : list A) (i : Z) (x : A) :
  List.length (list_insert l i x) = S (List.length l).
Proof.
  unfold list_insert.
  set (n := insert_index (Z.of_nat (List.length l)) i).
  rewrite <- (firstn_skipn n l) at 3.
  rewrite !length_app. cbn [List.length]. lia.
Qed.

Lemma count_occ_list_insert (l : list string) (i : Z) (x y : string) :
  count_occ string_dec (list_insert l i x) y
  = (count_occ string_dec l y + if string_dec x y then 1 else 0)%nat.
Proof.
  unfold list_insert.
  set (n := insert_index (Z.of_nat (List.length l)) i).
  rewrite <- (firstn_skipn n l) at 3.
  rewrite !count_occ_app. cbn [count_occ].
  destruct (string_dec x y); lia.
Qed.

Lemma In_list_insert {A} (l : list A) (i : Z) (x y : A) :
  In y (list_insert l i x) <-> y = x \/ In y l.
Proof.
  unfold list_insert.
  set (n := insert_index (Z.of_nat (List.length l)) i).
  rewrite <- (firstn_skipn n l) at 3.
  rewrite !in_app_iff. cbn [In]. intuition congruence.
Qed.

Lemma length_choice (a : list card) (ps : list nat) :
  List.length (Deck.choice a ps) = List.length ps.
Proof. apply length_map. Qed.

Lemma choice_In (a : list card) (ps : list nat) :
  Forall (fun i => (i < List.length a)%nat) ps ->
  Forall (fun c => In c a) (Deck.choice a ps).
Proof.
  induction 1 as [|i ps Hi _ IH]; simpl; constructor.
  - now apply nth_In.
  - exact IH.
Qed.

(** After a shuffle the shoe holds one item more than [full_deck]. *)
Lemma shuffle_length (d : Deck.draws) (self : Deck.t) :
  possible_draws d self ->
  exists l, Deck.current_deck (Deck.shuffle d self) = Some l /\
            List.length l = S (List.length (Deck.full_deck self)).
Proof.
  intros [Hlen _]. eexists. split; [reflexivity|].
  rewrite length_list_insert, length_choice. now rewrite Hlen.
Qed.

(** Every item of the shuffled shoe is the cut card or a card of
    [full_deck]. *)
Lemma shuffle_items (d : Deck.draws) (self : Deck.t) (l : list card) :
  possible_draws d self ->
  Deck.current_deck (Deck.shuffle d self) = Some l ->
  Forall (fun c => c = Deck.cut_card \/ In c (Deck.full_deck self)) l.
Proof.
  intros (_ & Hrange & _) Hl. injection Hl as <-.
  apply Forall_forall. intros c Hc.
  apply In_list_insert in Hc. destruct Hc as [Hc|Hc]; [now left|right].
  pose proof (choice_In _ _ Hrange) as Hall.
  rewrite Forall_forall in Hall. now apply Hall.
Qed.

(** When no card of [full_deck] is the string "0", the shuffled shoe
    holds the cut card exactly once. *)
Lemma shuffle_one_cut_card (d : Deck.draws) (self : Deck.t) (l : list card) :
  possible_draws d self ->
  ~ In Deck.cut_card (Deck.full_deck self) ->
  Deck.current_deck (Deck.shuffle d self) = Some l ->
  count_occ string_dec l Deck.cut_card = 1%nat.
Proof.
  intros (_ & Hrange & _) Hfresh Hl. injection Hl as <-.
  rewrite count_occ_list_insert.
  destruct (string_dec Deck.cut_card Deck.cut_card) as [_|Hne];
    [|now destruct Hne].
  assert (Hnot : ~ In Deck.cut_card
                     (Deck.choice (Deck.full_deck self) (Deck.picks d))).
  { intros Hin. pose proof (choice_In _ _ Hrange) as Hall.
    rewrite Forall_forall in Hall. exact (Hfresh (Hall _ Hin)). }
  apply (count_occ_not_In string_dec) in Hnot. rewrite Hnot. reflexivity.
Qed.

Lemma same_card_draws_possible : possible_draws same_card_draws one_deck_shoe.
Proof.
  repeat split.
  - apply Forall_forall. intros i Hi. apply repeat_spec in Hi. subst i.
    cbn. lia.
  - cbn. lia.
Qed.

(** C3: a shuffle of the one-deck shoe that [np.random.choice] can
    produce leaves 53 items of which 52 are the two of diamonds and none
    is the three of diamonds: the cards are drawn with replacement, so
    the result is not a rearrangement of the 52 cards. *)
Theorem shuffle_repeats_a_card :
  possible_draws same_card_draws one_deck_shoe /\
  Deck.current_deck (Deck.shuffle same_card_draws one_deck_shoe)
  = Some (repeat "2D" 52 ++ ["0"])%list /\
  List.length (repeat "2D" 52 ++ ["0"])%list = 53%nat /\
  count_occ string_dec (repeat "2D" 52 ++ ["0"])%list "2D" = 52%nat /\
  In "3D" Deck.one_deck /\
  count_occ string_dec (repeat "2D" 52 ++ ["0"])%list "3D" = 0%nat.
Proof.
  split; [exact same_card_draws_possible|].
  repeat split; try by_evaluation.
  cbn. tauto.
Qed.

(** ** Dealing *)

Lemma list_pop_last {A} (l : list A) (x : A) :
  list_pop (l ++ [x]) = (l, Ok x).
Proof.
  unfold list_pop. rewrite rev_unit, rev_involutive. reflexivity.
Qed.

Lemma list_pop_empty {A} :
  list_pop (@nil A) = ([], Raise (IndexError "pop from empty list")).
Proof. reflexivity. Qed.

Lemma holding_current (l : list card) (self : Dealer.t) :
  Deck.current_deck (Dealer.deck (holding l self)) = Some l.
Proof. reflexivity. Qed.

Lemma holding_holding (l l' : list card) (self : Dealer.t) :
  holding l (holding l' self) = holding l self.
Proof. reflexivity. Qed.

(** [deal_card] removes the last item of the drawable sequence and
    returns it, whatever it is. *)
Lemma deal_card_last (self : Dealer.t) (l : list card) (x : card) :
  Deck.current_deck (Dealer.deck self) = Some (l ++ [x])%list ->
  Dealer.deal_card self = (holding l self, Ok x).
Proof.
  intros Hcur. unfold Dealer.deal_card. rewrite Hcur, list_pop_last.
  reflexivity.
Qed.

Lemma deal_card_empty (self : Dealer.t) :
  Deck.current_deck (Dealer.deck self) = Some [] ->
  snd (Dealer.deal_card self) = Raise (IndexError "pop from empty list").
Proof.
  intros Hcur. unfold Dealer.deal_card. rewrite Hcur. reflexivity.
Qed.

Lemma top_last (self : Dealer.t) (x : card) :
  top self = Some x ->
  exists l, Deck.current_deck (Dealer.deck self) = Some (l ++ [x])%list.
Proof.
  unfold top. destruct (Deck.current_deck (Dealer.deck self)) as [l|];
    [|discriminate].
  destruct l as [|y l] using rev_ind; [discriminate|].
  rewrite map_app. cbn [map]. rewrite last_last.
  intros Hx. injection Hx as ->. now exists l.
Qed.

(** Dealing as many cards as lie above a position returns them from
    the top down and leaves the rest. *)
Lemma deal_many_suffix (above below : list card) (self : Dealer.t) :
  Deck.current_deck (Dealer.deck self) = Some (below ++ above)%list ->
  deal_many (List.length above) self
  = (holding below self, map Ok (rev above)).
Proof.
  revert self. induction above as [|x above IH] using rev_ind; intros self Hcur.
  - rewrite app_nil_r in Hcur. cbn.
    unfold holding, Dealer.set_deck, Deck.set_current_deck.
    destruct self as [h mn mx [n c full cur] hand]. cbn in *.
    now rewrite Hcur.
  - rewrite length_app, Nat.add_1_r. cbn [deal_many].
    rewrite app_assoc in Hcur.
    rewrite (deal_card_last self _ x Hcur).
    rewrite (IH (holding (below ++ above) self) (holding_current _ _)).
    rewrite holding_holding, rev_unit. reflexivity.
Qed.

(** After any shuffle the cut card comes out of [deal_card]: once the
    cards inserted above it are dealt, the next call returns it. *)
Lemma cut_card_is_dealt (d : Deck.draws) (self : Dealer.t) :
  let l := Deck.choice (Deck.full_deck (Dealer.deck self)) (Deck.picks d) in
  let n := insert_index (Z.of_nat (List.length l)) (Deck.location d) in
  let '(self', dealt) := deal_many (List.length (skipn n l)) (reshuffled d self) in
  dealt = map Ok (rev (skipn n l)) /\
  Dealer.deal_card self' = (holding (firstn n l) self', Ok Deck.cut_card).
Proof.
  intros l n.
  assert (Hcur : Deck.current_deck (Dealer.deck (reshuffled d self))
                 = Some ((firstn n l ++ [Deck.cut_card]) ++ skipn n l)%list).
  { cbn. unfold list_insert. fold l. fold n.
    now rewrite <- app_assoc. }
  rewrite (deal_many_suffix _ _ _ Hcur).
  split; [reflexivity|].
  apply deal_card_last. apply holding_current.
Qed.

(** C7 (as amended): [deal_card] does not intercept the cut card.  On
    every shoe whose top item is the cut card it removes that item and
    returns the string "0" to the caller, as it does for a card. *)
Theorem deal_card_returns_cut_card (self : Dealer.t) :
  top self = Some Deck.cut_card ->
  exists l,
    Deck.current_deck (Dealer.deck self) = Some (l ++ [Deck.cut_card])%list /\
    Dealer.deal_card self = (holding l self, Ok Deck.cut_card).
Proof.
  intros Htop. destruct (top_last self _ Htop) as [l Hl].
  exists l. split; [exact Hl|]. now apply deal_card_last.
Qed.

Lemma deal_card_returns_cut_card_witness :
  top (reshuffled in_order_draws (table true [])) = Some Deck.cut_card /\
  exists l,
    Deck.current_deck (Dealer.deck (reshuffled in_order_draws (table true [])))
    = Some (l ++ [Deck.cut_card])%list /\
    Dealer.deal_card (reshuffled in_order_draws (table true []))
    = (holding l (reshuffled in_order_draws (table true [])), Ok Deck.cut_card).
Proof.
  split; [reflexivity|].
  apply (deal_card_returns_cut_card (reshuffled in_order_draws (table true []))).
  reflexivity.
Defined.

Lemma in_order_draws_possible : possible_draws in_order_draws one_deck_shoe.
Proof.
  repeat split.
  - apply Forall_forall. intros i Hi. apply in_seq in Hi. cbn. lia.
  - cbn. lia.
Qed.

Lemma in_order_shoe :
  Deck.current_deck (Deck.shuffle in_order_draws one_deck_shoe)
  = Some (Deck.one_deck ++ [Deck.cut_card])%list.
Proof. reflexivity. Qed.

(** C7 (as stated) fails: the one-deck shoe shuffled into the 52 cards
    with the cut card inserted at index 52 is reachable, its top item is
    the cut card, and the first [deal_card] returns it. *)
Lemma cut_card_dealt_from_fresh_shoe :
  reachable (reshuffled in_order_draws (table true [])) /\
  top (reshuffled in_order_draws (table true [])) = Some Deck.cut_card /\
  snd (Dealer.deal_card (reshuffled in_order_draws (table true [])))
  = Ok Deck.cut_card.
Proof.
  split; [|split; reflexivity].
  apply reachable_shuffle. exact in_order_draws_possible.
Qed.

(** ** Construction of the shoe *)

Lemma init_wrong_type (g : option (list card)) (n c : pyval) (d : Deck.draws) :
  isinstance_int n && (isinstance_int c || isinstance_float c) = false ->
  exists msg, Deck.init g n c d = Raise (TypeError msg).
Proof.
  intros Hty. unfold Deck.init. rewrite Hty. cbn. eauto.
Qed.

Lemma init_out_of_range (g : option (list card)) (n c : pyval) (d : Deck.draws) :
  isinstance_int n && (isinstance_int c || isinstance_float c) = true ->
  (0 <? int_of n) && (int_of n <? 9) = false \/
  le_num (1 # 2)%Q (num_of c) && num_le (num_of c) (2 # 1)%Q = false ->
  exists msg, Deck.init g n c d = Raise (ValueError msg).
Proof.
  intros Hty Hrange. unfold Deck.init. rewrite Hty. cbn [negb].
  destruct Hrange as [Hr|Hr]; rewrite Hr; cbn [negb orb].
  - eauto.
  - rewrite orb_true_r. eauto.
Qed.

(** With arguments that pass both checks the constructor goes on to
    [one_deck*self.num_decks], and what happens there is decided by the
    binding of the name [one_deck]. *)
Lemma init_checks_passed (g : option (list card)) (n c : pyval) (d : Deck.draws) :
  isinstance_int n && (isinstance_int c || isinstance_float c) = true ->
  (0 <? int_of n) && (int_of n <? 9) = true ->
  le_num (1 # 2)%Q (num_of c) && num_le (num_of c) (2 # 1)%Q = true ->
  Deck.init g n c d =
  match g with
  | None => Raise (NameError "one_deck")
  | Some deck => Ok (Deck.shuffle d (Deck.mk n c (list_mul deck (int_of n)) None))
  end.
Proof.
  intros Hty Hn Hc. unfold Deck.init. now rewrite Hty, Hn, Hc.
Qed.

(** In the module as loaded no call of the constructor returns a shoe. *)
Lemma init_never_returns (n c : pyval) (d : Deck.draws) :
  exists e, Deck.init module_one_deck n c d = Raise e.
Proof.
  unfold Deck.init, module_one_deck.
  destruct (negb _); [eauto|].
  destruct (_ || _); eauto.
Qed.

(** An integer number of decks from 1 to 8 and an integer or rational
    cut-card location from 1/2 to 2 pass both checks, and the
    constructor raises NameError. *)
Lemma init_valid_arguments (z : Z) (c : pyval) (d : Deck.draws) :
  1 <= z <= 8 ->
  (exists k, c = PyInt k /\ 1 <= k <= 2) \/
  (exists q, c = PyFloat (Finite q) /\ (1 # 2 <= q)%Q /\ (q <= 2 # 1)%Q) ->
  Deck.init module_one_deck (PyInt z) c d = Raise (NameError "one_deck").
Proof.
  intros Hz Hc.
  rewrite init_checks_passed; [reflexivity| | |].
  - destruct Hc as [(k & -> & _)|(q & -> & _)]; reflexivity.
  - cbn. apply andb_true_iff. split; apply Z.ltb_lt; lia.
  - destruct Hc as [(k & -> & Hk)|(q & -> & Hlo & Hhi)]; cbn.
    + assert (k = 1 \/ k = 2) as [-> | ->] by lia; reflexivity.
    + apply andb_true_iff. split; now apply Qle_bool_iff.
Qed.

(** Were [one_deck] bound at module level to the class attribute, the
    same arguments would give a shoe of 52 cards per deck. *)
Lemma init_with_one_deck_bound (z : Z) (c : pyval) (d : Deck.draws) :
  1 <= z <= 8 ->
  (exists k, c = PyInt k /\ 1 <= k <= 2) \/
  (exists q, c = PyFloat (Finite q) /\ (1 # 2 <= q)%Q /\ (q <= 2 # 1)%Q) ->
  exists self,
    Deck.init (Some Deck.one_deck) (PyInt z) c d = Ok self /\
    Z.of_nat (List.length (Deck.full_deck self)) = 52 * z.
Proof.
  intros Hz Hc.
  rewrite init_checks_passed.
  - eexists. split; [reflexivity|]. cbn [Deck.shuffle Deck.set_current_deck
      Deck.full_deck int_of].
    rewrite length_list_mul, one_deck_length. lia.
  - destruct Hc as [(k & -> & _)|(q & -> & _)]; reflexivity.
  - cbn. apply andb_true_iff. split; apply Z.ltb_lt; lia.
  - destruct Hc as [(k & -> & Hk)|(q & -> & Hlo & Hhi)]; cbn.
    + assert (k = 1 \/ k = 2) as [-> | ->] by lia; reflexivity.
    + apply andb_true_iff. split; now apply Qle_bool_iff.
Qed.

Lemma init_examples (d : Deck.draws) :
  (exists msg, Deck.init module_one_deck (PyStr "6") (PyInt 1) d
               = Raise (TypeError msg)) /\
  (exists msg, Deck.init module_one_deck (PyInt 6) PyNone d
               = Raise (TypeError msg)) /\
  (exists msg, Deck.init module_one_deck (PyInt 0) (PyInt 1) d
               = Raise (ValueError msg)) /\
  (exists msg, Deck.init module_one_deck (PyInt 9) (PyInt 1) d
               = Raise (ValueError msg)) /\
  (exists msg, Deck.init module_one_deck (PyInt 6) (PyFloat (Finite (1 # 4))) d
               = Raise (ValueError msg)) /\
  (exists msg, Deck.init module_one_deck (PyInt 6) (PyFloat NaN) d
               = Raise (ValueError msg)).
Proof. repeat split; eexists; reflexivity. Qed.

(** C8: [Deck(1, 1)] and [Deck()], whose arguments are in range, do not
    return a shoe: after the two checks the constructor reads the bare
    name [one_deck], which is an attribute of the class and not a name
    of the module, and raises NameError. *)
Theorem init_in_range_raises (d : Deck.draws) :
  Deck.init module_one_deck (PyInt 1) (PyInt 1) d
  = Raise (NameError "one_deck") /\
  Deck.init module_one_deck (PyInt 6) (PyInt 1) d
  = Raise (NameError "one_deck") /\
  Deck.init module_one_deck (PyInt 8) (PyFloat (Finite (3 # 2))) d
  = Raise (NameError "one_deck").
Proof. repeat split; reflexivity. Qed.

(** ** The bet guard *)

Lemma check_bet_allowed_examples :
  Player.check_bet_allowed (Player.init 10 "dalembert" "basic") 20
    (table true []) = false /\
  Player.check_bet_allowed (Player.init 5000 "dalembert" "basic") 2000
    (table true []) = false /\
  Player.check_bet_allowed (Player.init 1000 "dalembert" "basic") 1
    (table true []) = true.
Proof. repeat split; reflexivity. Qed.

(** C9: [check_bet_allowed] answers false exactly when the amount is
    above the bank or above the dealer's maximum bet and true otherwise,
    and its answer does not change with the dealer's minimum bet. *)
Theorem check_bet_allowed_guard (self : Player.t) (amt : Z) (dealer : Dealer.t) :
  (Player.check_bet_allowed self amt dealer = false <->
   Player.bank self < amt \/ Dealer.max_bet dealer < amt) /\
  (Player.check_bet_allowed self amt dealer = true <->
   amt <= Player.bank self /\ amt <= Dealer.max_bet dealer) /\
  (forall min : Z,
     Player.check_bet_allowed self amt
       (Dealer.mk (Dealer.hit_on_soft17 dealer) min (Dealer.max_bet dealer)
                  (Dealer.deck dealer) (Dealer.current_hand dealer))
     = Player.check_bet_allowed self amt dealer).
Proof.
  unfold Player.check_bet_allowed. cbn [Dealer.max_bet].
  destruct (Player.bank self <? amt) eqn:Hbank;
    destruct (amt >? Dealer.max_bet dealer) eqn:Hmax; cbn [orb];
    rewrite ?Z.gtb_ltb in Hmax;
    try apply Z.ltb_lt in Hbank; try apply Z.ltb_ge in Hbank;
    try apply Z.ltb_lt in Hmax; try apply Z.ltb_ge in Hmax;
    repeat split; intros; try discriminate; try reflexivity; lia.
Qed.

(** ** Placing the bet *)

Lemma committed_state (amt : Z) (self : Player.t) :
  Player.commit amt self = (committed amt self, Ok tt) /\
  Player.bank (committed amt self) = Player.bank self - amt /\
  Player.current_bet (committed amt self) = amt /\
  Player.previous_bet (committed amt self) = Player.previous_bet self /\
  Player.previous_outcome (committed amt self) = Player.previous_outcome self.
Proof. repeat split; reflexivity. Qed.


Lemma outcome_is_other (v : option string) (s : string) :
  v <> Some s -> Player.outcome_is v s = false.
Proof.
  destruct v as [o|]; [|reflexivity]. intros Hne. cbn.
  apply String.eqb_neq. congruence.
Qed.

(** After a loss on a bet other than the minimum no bet is placed,
    whatever [check_bet_allowed] is bound to: that branch has no
    statement. *)
Lemma place_initial_bet_loss_above_minimum
    (g : option (Z -> Dealer.t -> res bool)) (dealer : Dealer.t)
    (self : Player.t) (b : Z) :
  Player.previous_bet self = Some b ->
  Player.previous_outcome self = Some "loss" ->
  b <> Dealer.min_bet dealer ->
  Player.place_initial_bet g dealer self = (self, Ok tt).
Proof.
  intros Hbet Hout Hne. unfold Player.place_initial_bet, Player.bind, Player.get.
  rewrite Hbet, Hout. cbn.
  apply Z.eqb_neq in Hne. rewrite Hne, andb_false_r. reflexivity.
Qed.

(** In the module as loaded every branch that validates its bet raises
    NameError at the call. *)
Lemma place_initial_bet_after_win (dealer : Dealer.t) (self : Player.t) :
  Player.previous_outcome self = Some "win" ->
  Player.place_initial_bet module_check_bet_allowed dealer self
  = (self, Raise (NameError "check_bet_allowed")).
Proof.
  intros Hout. unfold Player.place_initial_bet, Player.bind, Player.get.
  rewrite Hout. cbn. rewrite andb_false_r.
  destruct (Player.bet_is _ _); reflexivity.
Qed.

Lemma place_initial_bet_loss_at_minimum (dealer : Dealer.t) (self : Player.t) :
  Player.previous_bet self = Some (Dealer.min_bet dealer) ->
  Player.previous_outcome self = Some "loss" ->
  Player.place_initial_bet module_check_bet_allowed dealer self
  = (self, Raise (NameError "check_bet_allowed")).
Proof.
  intros Hbet Hout. unfold Player.place_initial_bet, Player.bind, Player.get.
  rewrite Hbet, Hout. cbn. rewrite andb_false_r, Z.eqb_refl. reflexivity.
Qed.

(** C2: with bank 970, minimum 15 and maximum 1000, after a loss on a
    bet of 30 the call returns without placing a bet (for every binding
    of [check_bet_allowed]) where the bet should be 45; and in the
    module as loaded the call after a win on 15, and after a loss on 15,
    raises NameError where the bet should be 15, and 30. *)
Theorem place_initial_bet_progression :
  (forall g, Player.place_initial_bet g (table true [])
               (player_after 970 30 "loss")
             = (player_after 970 30 "loss", Ok tt)) /\
  Player.place_initial_bet module_check_bet_allowed (table true [])
    (player_after 985 15 "win")
  = (player_after 985 15 "win", Raise (NameError "check_bet_allowed")) /\
  Player.place_initial_bet module_check_bet_allowed (table true [])
    (player_after 985 15 "loss")
  = (player_after 985 15 "loss", Raise (NameError "check_bet_allowed")).
Proof.
  split; [intros g; now apply (place_initial_bet_loss_above_minimum g _ _ 30)|].
  split; reflexivity.
Qed.

(** C10: when the previous bet is a nonzero amount and the previous
    outcome is neither "win" nor "loss" ("push", another string, or
    unset), [place_initial_bet] returns without raising and leaves the
    player, bank and current bet included, as it was. *)
Theorem place_initial_bet_other_outcome
    (g : option (Z -> Dealer.t -> res bool)) (dealer : Dealer.t)
    (self : Player.t) (b : Z) :
  Player.previous_bet self = Some b ->
  b <> 0 ->
  Player.previous_outcome self <> Some "win" ->
  Player.previous_outcome self <> Some "loss" ->
  Player.place_initial_bet g dealer self = (self, Ok tt).
Proof.
  intros Hbet Hb Hwin Hloss.
  unfold Player.place_initial_bet, Player.bind, Player.get.
  rewrite Hbet. cbn.
  apply Z.eqb_neq in Hb. rewrite Hb. cbn.
  now rewrite (outcome_is_other _ _ Hwin), (outcome_is_other _ _ Hloss).
Qed.

Lemma place_initial_bet_other_outcome_witness :
  Player.place_initial_bet module_check_bet_allowed (table true [])
    (player_after 970 30 "push")
  = (player_after 970 30 "push", Ok tt).
Proof.
  apply (place_initial_bet_other_outcome module_check_bet_allowed
           (table true []) (player_after 970 30 "push") 30).
  - reflexivity.
  - lia.
  - discriminate.
  - discriminate.
Defined.

(** After a push the same holds whatever the previous bet is. *)
Lemma place_initial_bet_push
    (g : option (Z -> Dealer.t -> res bool)) (dealer : Dealer.t)
    (self : Player.t) :
  Player.previous_outcome self = Some "push" ->
  Player.place_initial_bet g dealer self = (self, Ok tt).
Proof.
  intros Hout. unfold Player.place_initial_bet, Player.bind, Player.get.
  rewrite Hout. cbn. now rewrite andb_false_r.
Qed.

(** A previous bet of 0 with no outcome recorded is taken for the first
    round. *)
Lemma place_initial_bet_zero_bet (g : option (Z -> Dealer.t -> res bool)) :
  Player.place_initial_bet g (table true [])
    (Player.mk 1000 "dalembert" "basic" [] 0 (Some 0) None)
  = (committed 15 (Player.mk 1000 "dalembert" "basic" [] 0 (Some 0) None),
     Ok tt).
Proof. reflexivity. Qed.


(** C6: on the first round a player whose bank holds 10 faces a
    minimum bet of 15.  [check_bet_allowed] refuses 15, yet
    [place_initial_bet] commits it without asking and returns normally,
    leaving the bank at -5; the branch after a win on the minimum bet
    does ask before committing the same amount. *)
Theorem place_initial_bet_first_bet_unchecked
    (g : option (Z -> Dealer.t -> res bool)) :
  Player.check_bet_allowed (Player.init 10 "dalembert" "basic") 15
    (table true []) = false /\
  Player.place_initial_bet g (table true [])
    (Player.init 10 "dalembert" "basic")
  = (Player.mk (-5) "dalembert" "basic" [] 15 None None, Ok tt).
Proof. split; reflexivity. Qed.

(** ** The bet progression when the calls reach the player's method *)

Lemma own_method_win_at_minimum (dealer : Dealer.t) (self : Player.t) :
  Player.previous_bet self = Some (Dealer.min_bet dealer) ->
  Player.previous_outcome self = Some "win" ->
  Player.place_initial_bet (own_method self) dealer self
  = if Player.check_bet_allowed self (Dealer.min_bet dealer) dealer
    then (committed (Dealer.min_bet dealer) self, Ok tt)
    else (self, Raise Player.insufficient_funds).
Proof.
  intros Hbet Hout.
  unfold Player.place_initial_bet, Player.bind, Player.get. cbn.
  rewrite Hbet, Hout. cbn. rewrite andb_false_r, Z.eqb_refl.
  unfold Player.bind, Player.lift. cbn.
  destruct (Player.check_bet_allowed _ _ _); reflexivity.
Qed.

Lemma own_method_win_above_minimum (dealer : Dealer.t) (self : Player.t)
    (b : Z) :
  Player.previous_bet self = Some b ->
  b <> Dealer.min_bet dealer ->
  Player.previous_outcome self = Some "win" ->
  Player.place_initial_bet (own_method self) dealer self
  = if Player.check_bet_allowed self (b - Dealer.min_bet dealer) dealer
    then (committed (b - Dealer.min_bet dealer) self, Ok tt)
    else (self, Raise Player.insufficient_funds).
Proof.
  intros Hbet Hne Hout.
  unfold Player.place_initial_bet, Player.bind, Player.get. cbn.
  rewrite Hbet, Hout. cbn. apply Z.eqb_neq in Hne.
  rewrite andb_false_r, Hne.
  unfold Player.bind, Player.lift. cbn. rewrite Hbet. cbn.
  destruct (Player.check_bet_allowed _ _ _); reflexivity.
Qed.

(** After a loss on the minimum bet: twice the minimum when the guard
    allows it; failure when it is above the bank; otherwise it is above
    the maximum bet, and the maximum bet is placed. *)
Lemma own_method_loss_at_minimum (dealer : Dealer.t) (self : Player.t) :
  Player.previous_bet self = Some (Dealer.min_bet dealer) ->
  Player.previous_outcome self = Some "loss" ->
  Player.place_initial_bet (own_method self) dealer self
  = if Player.check_bet_allowed self
         (Dealer.min_bet dealer + Dealer.min_bet dealer) dealer
    then (committed (Dealer.min_bet dealer + Dealer.min_bet dealer) self, Ok tt)
    else if Dealer.min_bet dealer + Dealer.min_bet dealer >? Player.bank self
    then (self, Raise Player.insufficient_funds)
    else if Player.check_bet_allowed self (Dealer.max_bet dealer) dealer
    then (committed (Dealer.max_bet dealer) self, Ok tt)
    else (self, Raise Player.insufficient_funds).
Proof.
  intros Hbet Hout.
  unfold Player.place_initial_bet, Player.bind, Player.get. cbn.
  rewrite Hbet, Hout. cbn. rewrite andb_false_r, Z.eqb_refl.
  unfold Player.bind, Player.lift. cbn. rewrite Hbet. cbn.
  destruct (Player.check_bet_allowed self _ dealer) eqn:Hok; [reflexivity|].
  cbn. destruct (_ >? Player.bank self) eqn:Hbank; [reflexivity|].
  assert (Hmax : (Dealer.min_bet dealer + Dealer.min_bet dealer
                  >? Dealer.max_bet dealer) = true).
  { unfold Player.check_bet_allowed in Hok.
    rewrite Z.gtb_ltb in Hbank. rewrite Hbank in Hok. cbn in Hok.
    now destruct (_ >? Dealer.max_bet dealer). }
  rewrite Hmax. cbn.
  destruct (Player.check_bet_allowed self (Dealer.max_bet dealer) dealer);
    reflexivity.
Qed.

(** The progression of the specification, bank 1000 and bets from 15 to
    1000, under that binding: 15 first, 30 after a loss on 15, 15 after
    a win on 30, 15 after a win on 15. *)
Lemma own_method_progression :
  let first := Player.init 1000 "dalembert" "basic" in
  Player.place_initial_bet (own_method first) (table true []) first
  = (committed 15 first, Ok tt) /\
  Player.place_initial_bet (own_method (player_after 985 15 "loss"))
    (table true []) (player_after 985 15 "loss")
  = (committed 30 (player_after 985 15 "loss"), Ok tt) /\
  Player.place_initial_bet (own_method (player_after 955 30 "win"))
    (table true []) (player_after 955 30 "win")
  = (committed 15 (player_after 955 30 "win"), Ok tt) /\
  Player.place_initial_bet (own_method (player_after 985 15 "win"))
    (table true []) (player_after 985 15 "win")
  = (committed 15 (player_after 985 15 "win"), Ok tt).
Proof. repeat split; reflexivity. Qed.


(** * Further properties of the methods *)

(** ** Hand totals *)

Lemma comprehension_Forall2 {A B} (f : A -> res B) (l : list A) (vs : list B) :
  comprehension f l = Ok vs <-> Forall2 (fun a b => f a = Ok b) l vs.
Proof.
  revert vs. induction l as [|a l IH]; intros vs; cbn.
  - split.
    + intros H. injection H as <-. constructor.
    + intros H. inversion H. reflexivity.
  - split.
    + destruct (f a) as [b|e] eqn:Hb; cbn; [|discriminate].
      destruct (comprehension f l) as [bs|e] eqn:Hbs; cbn; [|discriminate].
      intros H. injection H as <-. constructor; [exact Hb|].
      now apply IH.
    + intros H. inversion H as [|a' b l' bs Hb Hbs]; subst.
      rewrite Hb. cbn. apply IH in Hbs. rewrite Hbs. reflexivity.
Qed.

Lemma comprehension_app {A B} (f : A -> res B) (l1 l2 : list A) :
  comprehension f (l1 ++ l2)
  = (vs1 <- comprehension f l1 ;; vs2 <- comprehension f l2 ;;
     Ok (vs1 ++ vs2)%list).
Proof.
  induction l1 as [|a l1 IH]; cbn.
  - destruct (comprehension f l2); reflexivity.
  - destruct (f a) as [b|e]; cbn; [|reflexivity].
    rewrite IH.
    destruct (comprehension f l1) as [vs1|e]; cbn; [|reflexivity].
    destruct (comprehension f l2); reflexivity.
Qed.

(** The branch on [aces] asks whether some value is 1. *)
Lemma aces_branch {A} (vs : list Z) (soft hard : A) :
  match filter (Z.eqb 1) vs with
  | _ :: _ => soft
  | [] => hard
  end = if existsb (Z.eqb 1) vs then soft else hard.
Proof.
  induction vs as [|v vs IH]; cbn [filter existsb]; [reflexivity|].
  destruct (1 =? v); cbn [orb]; [reflexivity|exact IH].
Qed.

Lemma check_hand_total_of_vals (hand : list card) (vs : list Z) :
  comprehension Dealer.hand_val hand = Ok vs ->
  Dealer.check_hand_total hand
  = if existsb (Z.eqb 1) vs
    then (if py_sum vs + 10 <=? 21 then Ok (py_sum vs + 10) else Ok (py_sum vs))
    else Ok (py_sum vs).
Proof.
  intros Hvs. unfold Dealer.check_hand_total. rewrite Hvs. cbn [res_bind].
  apply aces_branch.
Qed.

Lemma check_hand_total_Ok_vals (hand : list card) (t : Z) :
  Dealer.check_hand_total hand = Ok t ->
  exists vs, comprehension Dealer.hand_val hand = Ok vs.
Proof.
  unfold Dealer.check_hand_total.
  destruct (comprehension Dealer.hand_val hand) as [vs|e]; [eauto|discriminate].
Qed.

Lemma py_sum_Permutation (vs vs' : list Z) :
  Permutation vs vs' -> py_sum vs = py_sum vs'.
Proof.
  intros Hp. rewrite !py_sum_fold_right.
  induction Hp; cbn; lia.
Qed.

Lemma existsb_Permutation {A} (p : A -> bool) (l l' : list A) :
  Permutation l l' -> existsb p l = existsb p l'.
Proof.
  intros Hp. induction Hp; cbn.
  - reflexivity.
  - now rewrite IHHp.
  - now rewrite !orb_assoc, (orb_comm (p y)).
  - congruence.
Qed.

(** The total of a hand does not depend on the order in which the cards
    were dealt. *)
Theorem check_hand_total_order (hand hand' : list card) (t : Z) :
  Permutation hand hand' ->
  Dealer.check_hand_total hand = Ok t ->
  Dealer.check_hand_total hand' = Ok t.
Proof.
  intros Hp Ht.
  destruct (check_hand_total_Ok_vals hand t Ht) as [vs Hvs].
  pose proof (proj1 (comprehension_Forall2 _ _ _) Hvs) as Hall.
  destruct (Permutation_Forall2 Hp Hall) as (vs' & Hpv & Hall').
  apply comprehension_Forall2 in Hall'.
  rewrite (check_hand_total_of_vals hand vs Hvs) in Ht.
  rewrite (check_hand_total_of_vals hand' vs' Hall').
  now rewrite <- (py_sum_Permutation _ _ Hpv), <- (existsb_Permutation _ _ _ Hpv).
Qed.

Lemma check_hand_total_order_witness :
  Dealer.check_hand_total ["9C"; "AD"; "6H"] = Ok 16.
Proof.
  apply (check_hand_total_order ["AD"; "6H"; "9C"] ["9C"; "AD"; "6H"] 16).
  - apply Permutation_sym.
    apply (Permutation_cons_app ["AD"; "6H"] [] "9C").
    apply Permutation_refl.
  - reflexivity.
Defined.

(** A cut card held in a hand counts for nothing: the total is that of
    the hand without it, and an unreadable card raises as it would
    without it. *)
Theorem check_hand_total_cut_card (before after : list card) :
  Dealer.check_hand_total (before ++ Deck.cut_card :: after)
  = Dealer.check_hand_total (before ++ after).
Proof.
  unfold Dealer.check_hand_total.
  rewrite !comprehension_app.
  change (comprehension Dealer.hand_val (Deck.cut_card :: after))
    with (b <- Dealer.hand_val Deck.cut_card ;;
          bs <- comprehension Dealer.hand_val after ;; Ok (b :: bs)).
  replace (Dealer.hand_val Deck.cut_card) with (@Ok Z 0) by reflexivity.
  cbn [res_bind].
  destruct (comprehension Dealer.hand_val before) as [vs1|e];
    cbn [res_bind]; [|reflexivity].
  destruct (comprehension Dealer.hand_val after) as [vs2|e];
    cbn [res_bind]; [|reflexivity].
  rewrite !aces_branch, !existsb_app. cbn [existsb].
  replace (1 =? 0) with false by reflexivity. cbn [orb].
  rewrite !py_sum_fold_right, !fold_right_app. cbn [fold_right].
  replace (0 + fold_right Z.add 0 vs2) with (fold_right Z.add 0 vs2) by lia.
  reflexivity.
Qed.

Lemma hand_val_cons (ch : ascii) (rest : string) :
  Dealer.hand_val (String ch rest)
  = if negb (str_in (String ch "") ["A"; "J"; "Q"; "K"])
    then match digit_of ch with
         | Some v => Ok v
         | None => Raise (ValueError "invalid literal for int() with base 10")
         end
    else if str_in (String ch "") ["J"; "Q"; "K"] then Ok 10 else Ok 1.
Proof. reflexivity. Qed.

Lemma digit_of_range (ch : ascii) (v : Z) :
  digit_of ch = Some v -> 0 <= v <= 9.
Proof.
  unfold digit_of.
  destruct ((48 <=? Z.of_nat (nat_of_ascii ch))
            && (Z.of_nat (nat_of_ascii ch) <=? 57)) eqn:Hdigit; [|discriminate].
  intros H. injection H as <-.
  apply andb_true_iff in Hdigit. destruct Hdigit as [Hlo Hhi].
  apply Z.leb_le in Hlo. apply Z.leb_le in Hhi. lia.
Qed.

Lemma hand_val_Ok (c : card) (v : Z) :
  Dealer.hand_val c = Ok v -> readable c = true /\ 0 <= v <= 10.
Proof.
  destruct c as [|ch rest]; [discriminate|].
  rewrite hand_val_cons. unfold readable.
  destruct (str_in (String ch "") ["A"; "J"; "Q"; "K"]); cbn [negb].
  - intros H. split; [now destruct (digit_of ch)|].
    destruct (str_in (String ch "") ["J"; "Q"; "K"]);
      injection H as <-; lia.
  - destruct (digit_of ch) as [w|] eqn:Hw; [|discriminate].
    intros H. injection H as <-. split; [reflexivity|].
    pose proof (digit_of_range ch w Hw). lia.
Qed.

Lemma readable_hand_val (c : card) :
  readable c = true -> exists v, Dealer.hand_val c = Ok v.
Proof.
  destruct c as [|ch rest]; [discriminate|].
  rewrite hand_val_cons. unfold readable.
  destruct (digit_of ch) as [w|].
  - intros _.
    destruct (str_in (String ch "") ["A"; "J"; "Q"; "K"]); cbn [negb];
      [destruct (str_in (String ch "") ["J"; "Q"; "K"])|]; eauto.
  - intros Hletter. rewrite Hletter. cbn [negb].
    destruct (str_in (String ch "") ["J"; "Q"; "K"]); eauto.
Qed.

(** [check_hand_total] returns a total exactly for the hands in which
    every card starts with a digit or with A, J, Q or K, and raises for
    every other hand; a total it returns is never negative. *)
Theorem check_hand_total_returns (hand : list card) :
  ((exists t, Dealer.check_hand_total hand = Ok t) <->
   forallb readable hand = true) /\
  (forall t, Dealer.check_hand_total hand = Ok t -> 0 <= t).
Proof.
  assert (Hvals : forall vs, comprehension Dealer.hand_val hand = Ok vs ->
                             Forall (fun v => 0 <= v <= 10) vs /\
                             forallb readable hand = true).
  { intros vs Hvs. apply comprehension_Forall2 in Hvs.
    induction Hvs as [|c v hand vs Hv _ IH]; cbn [forallb].
    - split; [constructor|reflexivity].
    - destruct (hand_val_Ok c v Hv) as [Hr Hrange].
      destruct IH as [Hall Hread]. rewrite Hr, Hread.
      split; [now constructor|reflexivity]. }
  assert (Hsum : forall vs, Forall (fun v => 0 <= v <= 10) vs -> 0 <= py_sum vs).
  { intros vs Hall. rewrite py_sum_fold_right.
    induction Hall; cbn [fold_right]; lia. }
  split; [split|].
  - intros [t Ht]. destruct (check_hand_total_Ok_vals hand t Ht) as [vs Hvs].
    exact (proj2 (Hvals vs Hvs)).
  - intros Hread.
    assert (Hex : exists vs, comprehension Dealer.hand_val hand = Ok vs).
    { clear Hvals. induction hand as [|c hand IH]; cbn [comprehension]; [eauto|].
      cbn [forallb] in Hread.
      apply andb_true_iff in Hread. destruct Hread as [Hc Hrest].
      destruct (readable_hand_val c Hc) as [v Hv].
      destruct (IH Hrest) as [vs Hvs]. rewrite Hv, Hvs. cbn [res_bind]. eauto. }
    destruct Hex as [vs Hvs].
    rewrite (check_hand_total_of_vals hand vs Hvs).
    destruct (existsb _ vs); [destruct (_ <=? 21)|]; eauto.
  - intros t Ht. destruct (check_hand_total_Ok_vals hand t Ht) as [vs Hvs].
    rewrite (check_hand_total_of_vals hand vs Hvs) in Ht.
    pose proof (Hsum vs (proj1 (Hvals vs Hvs))) as Hpos.
    destruct (existsb _ vs); [destruct (_ <=? 21)|];
      injection Ht as <-; lia.
Qed.


Lemma check_hand_total_without_tens_witness :
  Dealer.check_hand_total ["AD"; "6H"; "9C"] = Ok 16.
Proof.
  apply (check_hand_total_without_tens
           [(Spec.Ace, "D"); (Spec.Num 6, "H"); (Spec.Num 9, "C")]).
  - repeat constructor.
  - repeat constructor.
Defined.

(** On every hand of cards of the deck the dealer's move is defined, and
    it follows the total in which a ten counts 1 and can be promoted to
    11 like an ace: holding a ten and a six the dealer stands. *)
Theorem decide_next_move_deck (hit : bool) (min max : Z) (dk : Deck.t)
    (hand : list Spec.playing_card) :
  Forall (fun c => Spec.in_deck (fst c) = true) hand ->
  Dealer.decide_next_move (Dealer.mk hit min max dk (map Spec.encode hand))
  = Ok (if counted_total hand <? 17 then "hit" else "stand").
Proof.
  intros Hdeck. apply decide_next_move_threshold.
  exact (check_hand_total_deck hand Hdeck).
Qed.

Lemma decide_next_move_deck_witness :
  Dealer.decide_next_move (table true ["10D"; "6H"]) = Ok "stand".
Proof.
  apply (decide_next_move_deck true 15 1000 one_deck_shoe
           [(Spec.Num 10, "D"); (Spec.Num 6, "H")]).
  repeat constructor.
Defined.

(** ** Blackjack *)

Lemma check_blackjack_cons (ca cb : ascii) (ra rb : string) (rest : list card) :
  Dealer.check_blackjack (String ca ra :: String cb rb :: rest)
  = Ok ((String.eqb (String ca "") "A" && str_in (String cb "") Dealer.tens)
        || (String.eqb (String cb "") "A" && str_in (String ca "") Dealer.tens)).
Proof.
  unfold Dealer.check_blackjack, Dealer.or_else, Dealer.and_then,
    Dealer.rank_at, getitem. cbn [nth_error getitem0 res_bind].
  destruct (String.eqb (String ca "") "A");
    destruct (str_in (String cb "") Dealer.tens);
    destruct (String.eqb (String cb "") "A");
    destruct (str_in (String ca "") Dealer.tens); reflexivity.
Qed.

(** The answer does not depend on which of the two cards came first. *)
Theorem check_blackjack_swap (a b : card) :
  Dealer.check_blackjack [a; b] = Dealer.check_blackjack [b; a].
Proof.
  destruct a as [|ca ra], b as [|cb rb].
  - reflexivity.
  - unfold Dealer.check_blackjack, Dealer.or_else, Dealer.and_then,
      Dealer.rank_at, getitem. cbn [nth_error getitem0 res_bind].
    destruct (String.eqb (String cb "") "A"); reflexivity.
  - unfold Dealer.check_blackjack, Dealer.or_else, Dealer.and_then,
      Dealer.rank_at, getitem. cbn [nth_error getitem0 res_bind].
    destruct (String.eqb (String ca "") "A"); reflexivity.
  - rewrite !check_blackjack_cons. f_equal. apply orb_comm.
Qed.

(** Only the first two cards are looked at, so a longer hand that
    starts with an ace and a king is reported as blackjack; a hand of
    fewer than two cards raises IndexError. *)
Theorem check_blackjack_first_two (a b : card) (rest : list card) :
  Dealer.check_blackjack (a :: b :: rest) = Dealer.check_blackjack [a; b] /\
  (exists msg, Dealer.check_blackjack [a] = Raise (IndexError msg)) /\
  (exists msg, Dealer.check_blackjack [] = Raise (IndexError msg)).
Proof.
  split; [reflexivity|]. split; [|eexists; reflexivity].
  destruct a as [|ca ra]; [eexists; reflexivity|].
  unfold Dealer.check_blackjack, Dealer.or_else, Dealer.and_then,
    Dealer.rank_at, getitem. cbn [nth_error getitem0 res_bind].
  destruct (String.eqb (String ca "") "A"); eexists; reflexivity.
Qed.

Lemma str_in_tens (ch : ascii) :
  str_in (String ch "") Dealer.tens = true ->
  str_in (String ch "") ["A"; "J"; "Q"; "K"] = true /\
  str_in (String ch "") ["J"; "Q"; "K"] = true.
Proof.
  unfold str_in, Dealer.tens. cbn [existsb].
  replace (String.eqb (String ch "") "10") with false.
  - cbn [orb]. intros H. rewrite H. split; [apply orb_true_r|reflexivity].
  - cbn. now destruct (Ascii.eqb ch "1").
Qed.

Lemma hand_val_ace (ch : ascii) (rest : string) :
  String.eqb (String ch "") "A" = true ->
  Dealer.hand_val (String ch rest) = Ok 1.
Proof.
  intros H. apply String.eqb_eq in H. injection H as ->. reflexivity.
Qed.

Lemma hand_val_face (ch : ascii) (rest : string) :
  str_in (String ch "") Dealer.tens = true ->
  Dealer.hand_val (String ch rest) = Ok 10.
Proof.
  intros H. destruct (str_in_tens ch H) as [Hletter Hface].
  rewrite hand_val_cons, Hletter, Hface. reflexivity.
Qed.

(** A hand that [check_blackjack] accepts has the total 21. *)
Theorem check_blackjack_total (a b : card) :
  Dealer.check_blackjack [a; b] = Ok true ->
  Dealer.check_hand_total [a; b] = Ok 21.
Proof.
  destruct a as [|ca ra]; [discriminate|].
  destruct b as [|cb rb].
  - unfold Dealer.check_blackjack, Dealer.or_else, Dealer.and_then,
      Dealer.rank_at, getitem. cbn [nth_error getitem0 res_bind].
    destruct (String.eqb (String ca "") "A"); discriminate.
  - rewrite check_blackjack_cons. intros H. injection H as H.
    apply orb_true_iff in H.
    destruct H as [H|H]; apply andb_true_iff in H; destruct H as [Hace Hten];
      unfold Dealer.check_hand_total; cbn [comprehension];
      rewrite (hand_val_ace _ _ Hace), (hand_val_face _ _ Hten); reflexivity.
Qed.

Lemma check_blackjack_total_witness :
  Dealer.check_hand_total ["QS"; "AC"] = Ok 21.
Proof.
  apply (check_blackjack_total "QS" "AC"). reflexivity.
Defined.


(** ** The shuffled shoe *)

(** Whatever [np.random] draws, the shuffled shoe holds one item more
    than [full_deck]; when no card of [full_deck] is the string "0", it
    holds the cut card exactly once, and every other item is a card of
    [full_deck]. *)
Theorem shuffle_contents (d : Deck.draws) (self : Deck.t) :
  possible_draws d self ->
  ~ In Deck.cut_card (Deck.full_deck self) ->
  exists l,
    Deck.current_deck (Deck.shuffle d self) = Some l /\
    List.length l = S (List.length (Deck.full_deck self)) /\
    count_occ string_dec l Deck.cut_card = 1%nat /\
    Forall (fun c => c = Deck.cut_card \/ In c (Deck.full_deck self)) l /\
    Deck.full_deck (Deck.shuffle d self) = Deck.full_deck self.
Proof.
  intros Hd Hfresh.
  destruct (shuffle_length d self Hd) as (l & Hl & Hlen).
  exists l. split; [exact Hl|]. split; [exact Hlen|].
  split; [exact (shuffle_one_cut_card d self l Hd Hfresh Hl)|].
  split; [exact (shuffle_items d self l Hd Hl)|reflexivity].
Qed.

Lemma shuffle_contents_witness :
  exists l,
    Deck.current_deck (Deck.shuffle in_order_draws one_deck_shoe) = Some l /\
    List.length l = 53%nat /\
    count_occ string_dec l Deck.cut_card = 1%nat /\
    Forall (fun c => c = Deck.cut_card \/ In c Deck.one_deck) l /\
    Deck.full_deck (Deck.shuffle in_order_draws one_deck_shoe) = Deck.one_deck.
Proof.
  apply (shuffle_contents in_order_draws one_deck_shoe).
  - repeat split.
    + apply Forall_forall. intros i Hi. apply in_seq in Hi. cbn. lia.
    + cbn. lia.
  - intros Hin. cbn in Hin.
    repeat (destruct Hin as [Hin|Hin]; [discriminate Hin|]). exact Hin.
Defined.

Lemma insert_index_past_end (len : nat) (i : Z) :
  Z.of_nat len <= i -> insert_index (Z.of_nat len) i = len.
Proof.
  intros Hi.
  assert (Hneg : (i <? 0) = false) by (apply Z.ltb_ge; lia).
  unfold insert_index. cbv zeta. rewrite !Hneg.
  destruct (Z.of_nat len <? i) eqn:Hpast.
  - apply Nat2Z.id.
  - apply Z.ltb_ge in Hpast. lia.
Qed.

(** When the cut-card index is the number of cards or more, the cut
    card ends on top of the shoe and is the first item dealt. *)
Theorem shuffle_cut_card_on_top (d : Deck.draws) (self : Dealer.t) :
  Z.of_nat (List.length (Deck.picks d)) <= Deck.location d ->
  top (reshuffled d self) = Some Deck.cut_card /\
  snd (Dealer.deal_card (reshuffled d self)) = Ok Deck.cut_card.
Proof.
  intros Hloc.
  assert (Hcur : Deck.current_deck (Dealer.deck (reshuffled d self))
                 = Some (Deck.choice (Deck.full_deck (Dealer.deck self))
                                     (Deck.picks d) ++ [Deck.cut_card])%list).
  { cbn. unfold list_insert.
    rewrite length_choice, (insert_index_past_end _ _ Hloc).
    rewrite <- (length_choice (Deck.full_deck (Dealer.deck self))).
    now rewrite firstn_all, skipn_all. }
  split.
  - unfold top. rewrite Hcur, map_app. cbn [map]. apply last_last.
  - now rewrite (deal_card_last _ _ _ Hcur).
Qed.

Lemma shuffle_cut_card_on_top_witness :
  top (reshuffled (Deck.mk_draws (seq 0 52) 77) (table true []))
  = Some Deck.cut_card /\
  snd (Dealer.deal_card
         (reshuffled (Deck.mk_draws (seq 0 52) 77) (table true [])))
  = Ok Deck.cut_card.
Proof.
  apply (shuffle_cut_card_on_top (Deck.mk_draws (seq 0 52) 77) (table true [])).
  cbn. lia.
Defined.

(** Dealing as many cards as the shoe holds returns its items from the
    last to the first and empties it; the shoe is not refilled, and the
    next [deal_card] raises IndexError. *)
Theorem deal_whole_shoe (self : Dealer.t) (l : list card) :
  Deck.current_deck (Dealer.deck self) = Some l ->
  deal_many (List.length l) self = (holding [] self, map Ok (rev l)) /\
  Dealer.deal_card (holding [] self)
  = (holding [] self, Raise (IndexError "pop from empty list")).
Proof.
  intros Hcur. split.
  - now apply (deal_many_suffix l []).
  - reflexivity.
Qed.

Lemma deal_whole_shoe_witness :
  deal_many 3 (holding ["2D"; "KH"; "0"] (table true []))
  = (holding [] (table true []), [Ok "0"; Ok "KH"; Ok "2D"]) /\
  Dealer.deal_card (holding [] (table true []))
  = (holding [] (table true []), Raise (IndexError "pop from empty list")).
Proof.
  apply (deal_whole_shoe (holding ["2D"; "KH"; "0"] (table true []))
           ["2D"; "KH"; "0"]).
  reflexivity.
Defined.

(** ** Constructors *)


(** [Dealer(...)] builds its shoe first, so in the module as loaded it
    raises for every choice of arguments and no dealer is returned. *)
Theorem dealer_init_raises (n c : pyval) (hit : bool) (min max : Z)
    (d : Deck.draws) :
  exists e,
    Dealer.init module_one_deck n c hit min max d = Raise e /\
    Deck.init module_one_deck n c d = Raise e.
Proof.
  unfold Dealer.init.
  destruct (init_never_returns n c d) as [e He].
  exists e. rewrite He. split; reflexivity.
Qed.


(** ** Bets and payouts *)




(** In the module as loaded a call that returns has either changed
    nothing or placed the first bet: the only amount ever committed is
    the dealer's minimum bet, by a player with no previous bet and no
    previous outcome. *)
Theorem place_initial_bet_only_first_bet (dealer : Dealer.t)
    (self self' : Player.t) :
  Player.place_initial_bet module_check_bet_allowed dealer self
  = (self', Ok tt) ->
  self' = self \/
  (self' = committed (Dealer.min_bet dealer) self /\
   Player.not_bet (Player.previous_bet self) = true /\
   Player.not_outcome (Player.previous_outcome self) = true).
Proof.
  unfold Player.place_initial_bet, Player.call_check_bet_allowed,
    module_check_bet_allowed, Player.commit, Player.bind, Player.get,
    Player.update, Player.raise, Player.lift, Player.ret.
  destruct (Player.not_bet (Player.previous_bet self)) eqn:Hbet;
    destruct (Player.not_outcome (Player.previous_outcome self)) eqn:Hout;
    cbn [andb];
    try (intros H; injection H as <-; right; repeat split);
    destruct (Player.outcome_is (Player.previous_outcome self) "win");
    try (destruct (Player.bet_is (Player.previous_bet self)
                     (Dealer.min_bet dealer)) eqn:Hmin);
    try discriminate;
    destruct (Player.outcome_is (Player.previous_outcome self) "loss");
    try discriminate;
    intros H; injection H as <-; now left.
Qed.

Lemma place_initial_bet_only_first_bet_witness :
  committed 15 (Player.init 1000 "dalembert" "basic")
  = Player.init 1000 "dalembert" "basic" \/
  (committed 15 (Player.init 1000 "dalembert" "basic")
   = committed (Dealer.min_bet (table true []))
       (Player.init 1000 "dalembert" "basic") /\
   Player.not_bet (Player.previous_bet (Player.init 1000 "dalembert" "basic"))
   = true /\
   Player.not_outcome
     (Player.previous_outcome (Player.init 1000 "dalembert" "basic")) = true).
Proof.
  apply (place_initial_bet_only_first_bet (table true [])
           (Player.init 1000 "dalembert" "basic")
           (committed 15 (Player.init 1000 "dalembert" "basic"))).
  reflexivity.
Defined.



(** [reset_hand] empties the dealer's hand and leaves the shoe alone:
    the dealer's next move is then to hit, and dealing a card before or
    after the reset gives the same card and the same dealer. *)
Theorem reset_hand_deal_card (self : Dealer.t) :
  Dealer.decide_next_move (Dealer.reset_hand self) = Ok "hit" /\
  Dealer.deal_card (Dealer.reset_hand self)
  = (Dealer.reset_hand (fst (Dealer.deal_card self)),
     snd (Dealer.deal_card self)).
Proof.
  split; [reflexivity|].
  unfold Dealer.deal_card. cbn [Dealer.reset_hand Dealer.deck].
  destruct (Deck.current_deck (Dealer.deck self)) as [l|]; [|reflexivity].
  destruct (list_pop l) as [l' r]. reflexivity.
Qed.


(** ** The player's move *)

Lemma getitem_move_values (c : Play.cell) (m : string) :
  Play.getitem_move c = Play.Returns m ->
  In m ["hit"; "stand"; "double"; "split"].
Proof.
  destruct c as [v|]; [|discriminate].
  destruct v as [|b|z|f|code]; try discriminate.
  unfold Play.getitem_move, Play.move_dict. cbn [find fst snd].
  destruct (String.eqb "H" code); [intros H; injection H as <-; cbn; tauto|].
  destruct (String.eqb "S" code); [intros H; injection H as <-; cbn; tauto|].
  destruct (String.eqb "D" code); [intros H; injection H as <-; cbn; tauto|].
  destruct (String.eqb "SP" code); [intros H; injection H as <-; cbn; tauto|].
  discriminate.
Qed.

Lemma lookup_move_values (strategy : Play.held) (key : res string)
    (column m : string) :
  Play.lookup_move strategy key column = Play.Returns m ->
  In m ["hit"; "stand"; "double"; "split"].
Proof.
  destruct strategy as [s|t]; [discriminate|].
  unfold Play.lookup_move. destruct key as [k|e]; [|discriminate].
  cbn [Play.of_res Play.and_next].
  destruct (t k column) as [c|]; [|discriminate].
  apply getitem_move_values.
Qed.

(** A move that [decide_next_move] returns is one of "hit", "stand",
    "double" and "split", whatever the table holds. *)
Theorem decide_next_move_values (strategy : Play.held) (self : Player.t)
    (dealer : Dealer.t) (m : string) :
  Play.decide_next_move strategy self dealer = Play.Returns m ->
  In m ["hit"; "stand"; "double"; "split"].
Proof.
  unfold Play.decide_next_move.
  destruct (Dealer.rank_at (Dealer.current_hand dealer) 0) as [k|e];
    [|discriminate].
  cbn [Play.of_res Play.and_next].
  destruct (List.length (Player.current_hand self) =? 2)%nat.
  - destruct (Dealer.check_blackjack (Player.current_hand self)) as [[|]|e];
      cbn [Play.of_res Play.and_next]; [|
        destruct (Dealer.rank_at (Player.current_hand self) 0) as [k0|e0];
        [|discriminate]; cbn [Play.of_res Play.and_next];
        destruct (Dealer.rank_at (Player.current_hand self) 1) as [k1|e1];
        [|discriminate]; cbn [Play.of_res Play.and_next];
        destruct (String.eqb k0 k1); [apply lookup_move_values|];
        destruct (String.eqb k0 "A" || String.eqb k1 "A");
        [destruct (String.eqb k0 "A")|]; apply lookup_move_values
      | discriminate].
    intros H. injection H as <-. cbn. tauto.
  - cbn [Play.of_res Play.and_next]. apply lookup_move_values.
Qed.

Lemma decide_next_move_values_witness :
  In "hit" ["hit"; "stand"; "double"; "split"].
Proof.
  apply (decide_next_move_values (Play.Table sixteen_against_nine)
           (seated ["9D"; "7H"]) (table true ["9S"; "2D"]) "hit").
  reflexivity.
Defined.

(** A player whose two cards [check_blackjack] accepts stands, whatever
    [self.play_strategy] holds: the table is not consulted, and it does
    not matter whether [choose_play_strategy] was ever called. *)
Theorem decide_next_move_blackjack (strategy : Play.held) (self : Player.t)
    (dealer : Dealer.t) (a b : card) (k : string) :
  Dealer.rank_at (Dealer.current_hand dealer) 0 = Ok k ->
  Player.current_hand self = [a; b] ->
  Dealer.check_blackjack [a; b] = Ok true ->
  Play.decide_next_move strategy self dealer = Play.Returns "stand".
Proof.
  intros Hk Hhand Hbj. unfold Play.decide_next_move.
  rewrite Hk, Hhand. cbn [Play.of_res Play.and_next List.length Nat.eqb].
  rewrite Hbj. reflexivity.
Qed.

Lemma decide_next_move_blackjack_witness :
  Play.decide_next_move (Play.Name "basic") (seated ["AD"; "KH"])
    (table true ["9S"; "2D"]) = Play.Returns "stand".
Proof.
  apply (decide_next_move_blackjack (Play.Name "basic") (seated ["AD"; "KH"])
           (table true ["9S"; "2D"]) "AD" "KH" "9"); reflexivity.
Defined.

(** The dealer's first card is read before anything else: while the
    dealer holds no card the call raises IndexError, for every player
    and every strategy. *)
Theorem decide_next_move_no_dealer_card (strategy : Play.held)
    (self : Player.t) (dealer : Dealer.t) :
  Dealer.current_hand dealer = [] ->
  Play.decide_next_move strategy self dealer
  = Play.Raises (IndexError "list index out of range").
Proof.
  intros Hhand. unfold Play.decide_next_move. now rewrite Hhand.
Qed.

Lemma decide_next_move_no_dealer_card_witness :
  Play.decide_next_move (Play.Table sixteen_against_nine)
    (seated ["AD"; "KH"]) (Dealer.reset_hand (table true ["9S"; "2D"]))
  = Play.Raises (IndexError "list index out of range").
Proof.
  apply (decide_next_move_no_dealer_card (Play.Table sixteen_against_nine)
           (seated ["AD"; "KH"]) (Dealer.reset_hand (table true ["9S"; "2D"]))).
  reflexivity.
Defined.




(** An ace with a ten is not stood on as a blackjack: the move is
    looked up in row "A1" whichever card came first, a pair of tens in
    row "1,1", and a dealer showing a ten in column "1". *)
Theorem decide_next_move_tens (t : Play.table) (self : Player.t)
    (dealer : Dealer.t) (k s1 s2 : string) :
  Dealer.rank_at (Dealer.current_hand dealer) 0 = Ok k ->
  (Player.current_hand self = ["A" ++ s1; "10" ++ s2] \/
   Player.current_hand self = ["10" ++ s1; "A" ++ s2] ->
   Play.decide_next_move (Play.Table t) self dealer
   = Play.lookup_move (Play.Table t) (Ok "A1") k) /\
  (Player.current_hand self = ["10" ++ s1; "10" ++ s2] ->
   Play.decide_next_move (Play.Table t) self dealer
   = Play.lookup_move (Play.Table t) (Ok "1,1") k) /\
  (forall rest, Dealer.rank_at (("10" ++ s1) :: rest) 0 = Ok "1").
Proof.
  intros Hk. unfold Play.decide_next_move. rewrite Hk.
  split; [|split].
  - intros [-> | ->]; reflexivity.
  - intros ->. reflexivity.
  - reflexivity.
Qed.

Lemma decide_next_move_tens_witness :
  (Player.current_hand (seated ["AD"; "10H"]) = ["A" ++ "D"; "10" ++ "H"] \/
   Player.current_hand (seated ["AD"; "10H"]) = ["10" ++ "D"; "A" ++ "H"] ->
   Play.decide_next_move (Play.Table sixteen_against_nine)
     (seated ["AD"; "10H"]) (table true ["9S"; "2D"])
   = Play.lookup_move (Play.Table sixteen_against_nine) (Ok "A1") "9") /\
  (Player.current_hand (seated ["AD"; "10H"]) = ["10" ++ "D"; "10" ++ "H"] ->
   Play.decide_next_move (Play.Table sixteen_against_nine)
     (seated ["AD"; "10H"]) (table true ["9S"; "2D"])
   = Play.lookup_move (Play.Table sixteen_against_nine) (Ok "1,1") "9") /\
  (forall rest, Dealer.rank_at (("10" ++ "D") :: rest) 0 = Ok "1").
Proof.
  apply (decide_next_move_tens sixteen_against_nine (seated ["AD"; "10H"])
           (table true ["9S"; "2D"]) "9" "D" "H").
  reflexivity.
Defined.

(** ** Choosing the strategy table *)

(** For the "basic" strategy the table chosen is the one-deck table for
    a shoe of one deck, the two-deck table for two or three decks, and
    the four-deck table for every other number of decks; another
    strategy name is left as it is. *)
Theorem choose_play_strategy_table (df : Play.frame) (dealer : Dealer.t)
    (n : Z) :
  Deck.num_decks (Dealer.deck dealer) = PyInt n ->
  Play.choose_play_strategy df (Play.Name "basic") dealer
  = Play.Returns
      (Play.Table (df (if n =? 1 then 1
                       else if (n =? 2) || (n =? 3) then 2 else 4))) /\
  (forall s, s <> "basic" ->
     Play.choose_play_strategy df (Play.Name s) dealer
     = Play.Returns (Play.Name s)).
Proof.
  intros Hn. unfold Play.choose_play_strategy. rewrite Hn. split.
  - cbn [String.eqb Play.eq_int]. replace (String.eqb "basic" "basic") with true
      by reflexivity.
    destruct (n =? 1); [reflexivity|].
    destruct ((n =? 2) || (n =? 3)); reflexivity.
  - intros s Hs. apply String.eqb_neq in Hs. now rewrite Hs.
Qed.

Lemma choose_play_strategy_table_witness :
  Play.choose_play_strategy (fun _ => sixteen_against_nine)
    (Play.Name "basic") (table true [])
  = Play.Returns (Play.Table sixteen_against_nine) /\
  (forall s, s <> "basic" ->
     Play.choose_play_strategy (fun _ => sixteen_against_nine) (Play.Name s)
       (table true [])
     = Play.Returns (Play.Name s)).
Proof.
  apply (choose_play_strategy_table (fun _ => sixteen_against_nine)
           (table true []) 1).
  reflexivity.
Defined.

(** [choose_play_strategy] can be called once: after it has put a table
    in place, a second call raises ValueError at the comparison of the
    table with the name "basic". *)
Theorem choose_play_strategy_twice (df : Play.frame) (dealer : Dealer.t)
    (chosen : Play.held) :
  Play.choose_play_strategy df (Play.Name "basic") dealer
  = Play.Returns chosen ->
  exists msg,
    Play.choose_play_strategy df chosen dealer = Play.Raises (ValueError msg).
Proof.
  unfold Play.choose_play_strategy at 1.
  replace (String.eqb "basic" "basic") with true by reflexivity.
  destruct (Play.eq_int _ 1);
    [|destruct (Play.eq_int _ 2 || Play.eq_int _ 3)];
    intros H; injection H as <-; eexists; reflexivity.
Qed.

Lemma choose_play_strategy_twice_witness :
  exists msg,
    Play.choose_play_strategy (fun _ => sixteen_against_nine)
      (Play.Table sixteen_against_nine) (table true [])
    = Play.Raises (ValueError msg).
Proof.
  apply (choose_play_strategy_twice (fun _ => sixteen_against_nine)
           (table true []) (Play.Table sixteen_against_nine)).
  reflexivity.
Defined.


(** ** The cards of one deck *)

(** [one_deck] lists 52 different strings, the thirteen values of each
    suit in the order D, H, C, S; none of them is the cut card, and
    [check_hand_total] can read every one of them. *)
Theorem one_deck_cards :
  List.length Deck.one_deck = 52%nat /\
  NoDup Deck.one_deck /\
  ~ In Deck.cut_card Deck.one_deck /\
  forallb readable Deck.one_deck = true /\
  Deck.one_deck
  = flat_map (fun suit => map (fun val => val ++ suit)
                ["2"; "3"; "4"; "5"; "6"; "7"; "8"; "9"; "10";
                 "J"; "Q"; "K"; "A"])
      ["D"; "H"; "C"; "S"].
Proof.
  split; [reflexivity|].
  split; [exact one_deck_NoDup|].
  split; [exact one_deck_no_cut_card|].
  split; reflexivity.
Qed.
